(** * crawl_vitalki.py: the blog crawl pipeline, embedded and verified

    The script is one coroutine, [crawl_vitalik_blog], plus the
    [__main__] guard.  It talks to four collaborators that live outside
    the repository: the process environment, the crawl4ai fetch engine
    ([AsyncWebCrawler.arun]), the wall clock and [random.random], and
    [json.loads].  They are gathered in a [World] record of oracles; the
    script itself is a program in a small state-and-exception monad over
    a file system, a set of directories and an event trace.

    Left out: the text that [json.dump] produces (a file holds the JSON
    value itself), the start and the shutdown of the browser behind
    [AsyncWebCrawler], and errors of the operating system other than a
    missing directory.  The one floating-point operation of the script,
    the sum that gives the delay, is modelled with its rounding. *)

From Stdlib Require Import String Ascii List ZArith QArith Lia Bool.
From stdpp Require Import base gmap strings list fin_maps.

Import ListNotations.
Local Open Scope string_scope.
Local Open Scope list_scope.

(** ** Python strings *)

Module PyStr.

(** [s.startswith(p)] *)
Definition startswith (p s : string) : bool := String.prefix p s.

(** [sub in s]: [sub] occurs in [s] at some offset. *)
Fixpoint contains (sub s : string) : bool :=
  String.prefix sub s ||
  match s with
  | EmptyString => false
  | String _ s' => contains sub s'
  end.

(** Truthiness of a [str]: only the empty string is falsy. *)
Definition truthy (s : string) : bool :=
  match s with EmptyString => false | _ => true end.

(** Truthiness of an [Optional[str]]: [None] and [''] are falsy. *)
Definition truthy_opt (o : option string) : bool :=
  match o with None => false | Some s => truthy s end.

End PyStr.

(** ** JSON values and Python dicts *)

(** The values [json.loads] can return and [json.dump] can write, with
    numbers kept to the integers.  A [dict] keeps insertion order, so it
    is an association list. *)
#[warnings="-register-all"] Inductive json : Type :=
| JNull
| JBool (b : bool)
| JNum (z : Z)
| JStr (s : string)
| JArr (l : list json)
| JObj (d : list (string * json)).

Abbreviation pydict := (list (string * json)).

Module Dict.

(** [d.get(k)] *)
Fixpoint get (k : string) (d : pydict) : option json :=
  match d with
  | [] => None
  | (k', v) :: d' => if String.eqb k k' then Some v else get k d'
  end.

(** [d.get(k, default)] *)
Definition get_default (k : string) (default : json) (d : pydict) : json :=
  match get k d with Some v => v | None => default end.

(** [d[k] = v]: an existing key keeps its position, a new one goes last. *)
Fixpoint set (k : string) (v : json) (d : pydict) : pydict :=
  match d with
  | [] => [(k, v)]
  | (k', v') :: d' =>
      if String.eqb k k' then (k, v) :: d' else (k', v') :: set k v d'
  end.

(** [d.update(other)]: the items of [other] are assigned in order. *)
Definition update (d other : pydict) : pydict :=
  fold_left (fun acc kv => set (fst kv) (snd kv) acc) other d.

End Dict.

(** ** Paths *)

(** A [pathlib.Path] is its list of components; [p / name] appends one. *)
Abbreviation Path := (list string).

Definition path_div (p : Path) (name : string) : Path := p ++ [name].
Infix "//" := path_div (at level 40, left associativity).

(** [p.parent] *)
Definition parent (p : Path) : Path := removelast p.

(** The directories [p.mkdir(parents=True, exist_ok=True)] leaves in place:
    [p] and every ancestor of it. *)
Fixpoint ancestors_and_self (p : Path) : list Path :=
  match p with
  | [] => []
  | c :: p' => [c] :: map (cons c) (ancestors_and_self p')
  end.

(** ** The wall clock *)

(** What [datetime.now()] returns. *)
Record datetime := {
  year : N; month : N; day : N;
  hour : N; minute : N; second : N;
  microsecond : N
}.

(** The ranges the [datetime] type enforces; the year is kept to four
    digits, where [%Y] is unambiguous. *)
Definition valid_datetime (d : datetime) : bool :=
  (1000 <=? year d)%N && (year d <=? 9999)%N &&
  (1 <=? month d)%N && (month d <=? 12)%N &&
  (1 <=? day d)%N && (day d <=? 31)%N &&
  (hour d <=? 23)%N && (minute d <=? 59)%N && (second d <=? 59)%N &&
  (microsecond d <=? 999999)%N.

Definition digit (n : N) : ascii := ascii_of_N (48 + n mod 10).

(** [n] written with exactly [w] decimal digits, zero padded, the most
    significant first: what [%m], [%d], [%H], [%M], [%S] give for a value
    below 100 and [%Y] for a year below 10000. *)
Fixpoint fixed (w : nat) (n : N) : string :=
  match w with
  | O => ""
  | S w' => String (digit (n / 10 ^ N.of_nat w')) (fixed w' n)
  end.

(** [d.strftime("%Y%m%d_%H%M%S")] *)
Definition strftime (d : datetime) : string :=
  fixed 4 (year d) ++ fixed 2 (month d) ++ fixed 2 (day d) ++ "_" ++
  fixed 2 (hour d) ++ fixed 2 (minute d) ++ fixed 2 (second d).

(** Two clock readings fall in the same second. *)
Definition same_second (a b : datetime) : Prop :=
  year a = year b /\ month a = month b /\ day a = day b /\
  hour a = hour b /\ minute a = minute b /\ second a = second b.

(** ** Exceptions *)

(** The [Exception] subclasses the script can meet.  [EngineError] stands
    for whatever [Exception] the fetch engine raises. *)
Inductive exn : Type :=
| ValueError (msg : string)
| JSONDecodeError (msg : string)
| AttributeError (msg : string)
| FileNotFoundError (p : Path)
| EngineError (msg : string).

(** [except json.JSONDecodeError] *)
Definition is_JSONDecodeError (e : exn) : bool :=
  match e with JSONDecodeError _ => true | _ => false end.

(** [except Exception] *)
Definition is_Exception (e : exn) : bool := true.

(** ** The fetch engine's interface *)

Record Link := { href : string; text : string }.

(** The fields of crawl4ai's [CrawlResult] that the script reads. *)
Record CrawlResult := {
  success : bool;
  error_message : string;
  html : string;
  markdown : string;
  metadata : option pydict;
  extracted_content : option string;
  links : list (string * list Link)
}.

(** [links.get(k, default)] *)
Fixpoint links_get (k : string) (default : list Link)
    (ls : list (string * list Link)) : list Link :=
  match ls with
  | [] => default
  | (k', v) :: ls' => if String.eqb k k' then v else links_get k default ls'
  end.

Inductive CacheMode := ENABLED | BYPASS.

(** The schema and the instruction text are passed through to the engine
    untouched and are left out. *)
Record LLMExtractionStrategy := {
  provider : string;
  api_token : string;
  chunk_token_threshold : N
}.

Record CrawlerRunConfig := {
  cache_mode : option CacheMode;
  extraction_strategy : option LLMExtractionStrategy;
  process_iframes : bool;
  wait_for_images : bool
}.

(** ** The outside world *)

(** The collaborators, as oracles.  [arun], [now] and [random_bits] are
    indexed by how many times they were called before, so that the same
    URL can be answered differently on a second request. [environ] is the
    environment after [load_dotenv()].  [random_bits] is the 53-bit integer
    behind [random.random()]. [json_loads] answers [inl msg] for a
    [JSONDecodeError]. *)
Record World := {
  environ : string -> option string;
  arun : nat -> string -> CrawlerRunConfig -> exn + CrawlResult;
  now : nat -> datetime;
  random_bits : nat -> N;
  json_loads : string -> string + json
}.

(** ** Observable effects *)

Inductive message : Type :=
| MsgFound (n : nat)
| MsgProcessing (url : string)
| MsgFailed (url : string) (err : string)
| MsgSavedRaw (p : Path)
| MsgSavedProcessed (p : Path)
| MsgDecodeError (e : exn)
| MsgRawExtracted (s : string)
| MsgWaiting (delay : Q)
| MsgError (url : string) (e : exn)
| MsgTraceback
| MsgCompleted
| MsgKeyNotSet
| MsgKeyHint.

Inductive event : Type :=
| Printed (m : message)
| Mkdir (p : Path)
| Fetch (url : string) (cfg : CrawlerRunConfig)
| Wrote (p : Path) (content : json)
| Sleep (seconds : Q).

(** Files, directories, the trace of effects so far (oldest first) and
    the number of calls made to each indexed oracle. *)
Record state := {
  fs : gmap Path json;
  dirs : gset Path;
  trace : list event;
  fetches : nat;
  clock_reads : nat;
  random_draws : nat
}.

Definition log (e : event) (st : state) : state :=
  {| fs := fs st; dirs := dirs st; trace := trace st ++ [e];
     fetches := fetches st; clock_reads := clock_reads st;
     random_draws := random_draws st |}.

(** ** The monad: state plus Python exceptions *)

Inductive result (A : Type) : Type :=
| Ok (a : A)
| Raise (e : exn).
Arguments Ok {A} a.
Arguments Raise {A} e.

Definition M (A : Type) : Type := state -> result A * state.

Definition ret {A} (a : A) : M A := fun st => (Ok a, st).

Definition bind {A B} (m : M A) (k : A -> M B) : M B :=
  fun st =>
    match m st with
    | (Ok a, st') => k a st'
    | (Raise e, st') => (Raise e, st')
    end.

Definition raise {A} (e : exn) : M A := fun st => (Raise e, st).

(** [try: body  except <class> as e: handler e] *)
Definition try_except {A} (body : M A) (catches : exn -> bool)
    (handler : exn -> M A) : M A :=
  fun st =>
    match body st with
    | (Ok a, st') => (Ok a, st')
    | (Raise e, st') => if catches e then handler e st' else (Raise e, st')
    end.

Notation "x <- m ;; k" := (bind m (fun x => k))
  (at level 100, m at next level, right associativity).
Notation "m ;; k" := (bind m (fun _ => k))
  (at level 100, right associativity).

(** [for x in xs: body x] *)
Fixpoint for_each {A} (xs : list A) (body : A -> M unit) : M unit :=
  match xs with
  | [] => ret tt
  | x :: xs' => body x ;; for_each xs' body
  end.

(** *** State updates *)

Definition note_fetch (url : string) (cfg : CrawlerRunConfig) (st : state)
    : state :=
  {| fs := fs st; dirs := dirs st; trace := trace st ++ [Fetch url cfg];
     fetches := S (fetches st); clock_reads := clock_reads st;
     random_draws := random_draws st |}.

Definition tick_clock (st : state) : state :=
  {| fs := fs st; dirs := dirs st; trace := trace st;
     fetches := fetches st; clock_reads := S (clock_reads st);
     random_draws := random_draws st |}.

Definition draw_random (st : state) : state :=
  {| fs := fs st; dirs := dirs st; trace := trace st;
     fetches := fetches st; clock_reads := clock_reads st;
     random_draws := S (random_draws st) |}.

Definition make_dirs (p : Path) (st : state) : state :=
  {| fs := fs st;
     dirs := dirs st ∪ list_to_set (ancestors_and_self p);
     trace := trace st ++ [Mkdir p];
     fetches := fetches st; clock_reads := clock_reads st;
     random_draws := random_draws st |}.

Definition store (p : Path) (content : json) (st : state) : state :=
  {| fs := <[p := content]> (fs st); dirs := dirs st;
     trace := trace st ++ [Wrote p content];
     fetches := fetches st; clock_reads := clock_reads st;
     random_draws := random_draws st |}.

(** *** Primitive effects *)

Definition print (m : message) : M unit :=
  fun st => (Ok tt, log (Printed m) st).

Definition os_getenv (W : World) (k : string) : M (option string) :=
  ret (environ W k).

(** [await crawler.arun(url=url, config=cfg)] *)
Definition crawler_arun (W : World) (url : string) (cfg : CrawlerRunConfig)
    : M CrawlResult :=
  fun st =>
    match arun W (fetches st) url cfg with
    | inl e => (Raise e, note_fetch url cfg st)
    | inr r => (Ok r, note_fetch url cfg st)
    end.

(** [datetime.now()] *)
Definition datetime_now (W : World) : M datetime :=
  fun st => (Ok (now W (clock_reads st)), tick_clock st).

(** The value of [random.random()] drawn from 53 random bits: a multiple
    of 2^-53 in [0, 1). *)
Definition unit_interval (bits : N) : Q :=
  Z.of_N (bits mod 2 ^ 53) # 2 ^ 53.

(** Between 2 and 4 the IEEE doubles are the multiples of 2^-51.
    [nearest_double_2_4 x] is the double nearest to [x], the even multiple
    on a tie: what an operation on doubles returns when its exact result
    [x] lies in that range. *)
Definition nearest_double_2_4 (x : Q) : Q :=
  let n := (Qnum x * 2 ^ 51)%Z in
  let d := Z.pos (Qden x) in
  let q := (n / d)%Z in
  let up := match (2 * (n mod d) ?= d)%Z with
            | Lt => false
            | Gt => true
            | Eq => Z.odd q
            end in
  (if up then q + 1 else q)%Z # 2 ^ 51.

(** [2 + r] on doubles, for a double [r] in [0, 1): the exact sum lies in
    [2, 3) and is rounded to the nearest double. *)
Definition two_plus (r : Q) : Q := nearest_double_2_4 (2 + r).

(** [random.random()] *)
Definition random_random (W : World) : M Q :=
  fun st => (Ok (unit_interval (random_bits W (random_draws st))),
             draw_random st).

(** [await asyncio.sleep(delay)] *)
Definition asyncio_sleep (delay : Q) : M unit :=
  fun st => (Ok tt, log (Sleep delay) st).

(** [p.mkdir(parents=True, exist_ok=True)]; no regular file is assumed to
    stand in the way. *)
Definition mkdir (p : Path) : M unit :=
  fun st => (Ok tt, make_dirs p st).

(** [with open(p, 'w', encoding='utf-8') as f: json.dump(content, f, ...)]:
    the file is created or truncated; a missing directory is an error. *)
Definition write_json (p : Path) (content : json) : M unit :=
  fun st =>
    if decide (parent p ∈ dirs st) then (Ok tt, store p content st)
    else (Raise (FileNotFoundError p), st).

(** ** The script *)

Definition base_dir : Path := ["vitalik_blog_data"].
Definition raw_dir : Path := base_dir // "raw".
Definition processed_dir : Path := base_dir // "processed".

Definition root_url : string := "https://vitalik.eth.limo/".
Definition base_origin : string := "https://vitalik.eth.limo".

Definition make_strategy (api_key : string) : LLMExtractionStrategy :=
  {| provider := "openai/gpt-4";
     api_token := api_key;
     chunk_token_threshold := 3000 |}.

(** [CrawlerRunConfig(cache_mode=CacheMode.BYPASS)] *)
Definition root_config : CrawlerRunConfig :=
  {| cache_mode := Some BYPASS; extraction_strategy := None;
     process_iframes := false; wait_for_images := false |}.

(** The per-article [CrawlerRunConfig]. *)
Definition article_config (strategy : LLMExtractionStrategy)
    : CrawlerRunConfig :=
  {| cache_mode := None; extraction_strategy := Some strategy;
     process_iframes := true; wait_for_images := true |}.

(** *** Link discovery (lines 66-72) *)

(** ['/posts/' in href or '/general/' in href] *)
Definition is_article (h : string) : bool :=
  PyStr.contains "/posts/" h || PyStr.contains "/general/" h.

Definition resolve (h : string) : string :=
  if negb (PyStr.startswith "http" h) then base_origin ++ h else h.

Fixpoint discover (ls : list Link) : list string :=
  match ls with
  | [] => []
  | link :: ls' =>
      if is_article (href link)
      then resolve (href link) :: discover ls'
      else discover ls'
  end.

Definition article_urls (initial_result : CrawlResult) : list string :=
  discover (links_get "internal" [] (links initial_result)).

(** *** One article (lines 78-139) *)

Definition raw_filename (timestamp : string) : Path :=
  raw_dir // ("raw_" ++ timestamp ++ ".json").

Definition processed_filename (timestamp : string) : Path :=
  processed_dir // ("processed_" ++ timestamp ++ ".json").

Definition json_of_metadata (m : option pydict) : json :=
  match m with Some d => JObj d | None => JNull end.

Definition raw_content (url : string) (r : CrawlResult) (timestamp : string)
    : json :=
  JObj [ ("url", JStr url);
         ("html", JStr (html r));
         ("markdown", JStr (markdown r));
         ("metadata", json_of_metadata (metadata r));
         ("crawl_date", JStr timestamp) ].

(** [result.metadata.get(k, "")]; [None] has no [get]. *)
Definition metadata_get (r : CrawlResult) (k : string) : M json :=
  match metadata r with
  | Some m => ret (Dict.get_default k (JStr "") m)
  | None => raise (AttributeError "'NoneType' object has no attribute 'get'")
  end.

(** The fields merged into the extractor's record. *)
Definition required_fields (url timestamp : string) (title date : json)
    : pydict :=
  [ ("url", JStr url);
    ("crawl_date", JStr timestamp);
    ("title", title);
    ("date_published", date) ].

(** The body of the inner [try] (lines 113-125).  The [update] attribute
    is looked up before its argument is evaluated, and only a [dict] has
    one. *)
Definition save_processed (W : World) (url : string) (r : CrawlResult)
    (timestamp content : string) : M unit :=
  match json_loads W content with
  | inl msg => raise (JSONDecodeError msg)
  | inr (JObj d) =>
      title <- metadata_get r "title" ;;
      date <- metadata_get r "date" ;;
      let processed_content :=
        Dict.update d (required_fields url timestamp title date) in
      write_json (processed_filename timestamp) (JObj processed_content) ;;
      print (MsgSavedProcessed (processed_filename timestamp))
  | inr _ =>
      raise (AttributeError "object has no attribute 'update'")
  end.

(** Lines 110-128. *)
Definition save_processed_if_available (W : World) (url : string)
    (r : CrawlResult) (timestamp : string) : M unit :=
  match extracted_content r with
  | Some content =>
      if PyStr.truthy content then
        try_except (save_processed W url r timestamp content)
          is_JSONDecodeError
          (fun e => print (MsgDecodeError e) ;;
                    print (MsgRawExtracted content))
      else ret tt
  | None => ret tt
  end.

(** The body of the outer [try] (lines 79-133); [continue] ends it. *)
Definition process_article (W : World) (strategy : LLMExtractionStrategy)
    (url : string) : M unit :=
  print (MsgProcessing url) ;;
  let config := article_config strategy in
  result <- crawler_arun W url config ;;
  if negb (success result) then
    print (MsgFailed url (error_message result))
  else
    dt <- datetime_now W ;;
    let timestamp := strftime dt in
    write_json (raw_filename timestamp) (raw_content url result timestamp) ;;
    print (MsgSavedRaw (raw_filename timestamp)) ;;
    save_processed_if_available W url result timestamp ;;
    r <- random_random W ;;
    let delay := two_plus r in
    print (MsgWaiting delay) ;;
    asyncio_sleep delay.

(** One turn of the [for url in article_urls] loop, with its
    [except Exception] handler (lines 135-139). *)
Definition article_iteration (W : World) (strategy : LLMExtractionStrategy)
    (url : string) : M unit :=
  try_except (process_article W strategy url)
    is_Exception
    (fun e => print (MsgError url e) ;; print MsgTraceback).

(** *** The coroutine and the entry point *)

Definition crawl_vitalik_blog (W : World) : M unit :=
  api_key <- os_getenv W "OPENAI_API_KEY" ;;
  if negb (PyStr.truthy_opt api_key) then
    raise (ValueError "OpenAI API key not found. Please set the OPENAI_API_KEY environment variable.")
  else
    mkdir raw_dir ;;
    mkdir processed_dir ;;
    let strategy := make_strategy (default "" api_key) in
    initial_result <- crawler_arun W root_url root_config ;;
    let urls := article_urls initial_result in
    print (MsgFound (length urls)) ;;
    for_each urls (article_iteration W strategy) ;;
    print MsgCompleted.

(** [if __name__ == "__main__"]: the exit status and the final state.  An
    exception that leaves [asyncio.run] ends the process with status 1. *)
Definition main (W : World) (st : state) : Z * state :=
  if negb (PyStr.truthy_opt (environ W "OPENAI_API_KEY")) then
    match (print MsgKeyNotSet ;; print MsgKeyHint) st with
    | (_, st') => (1%Z, st')
    end
  else
    match crawl_vitalik_blog W st with
    | (Ok _, st') => (0%Z, st')
    | (Raise _, st') => (1%Z, st')
    end.

(** ** Reading a trace *)

(** The final state of a computation. *)
Definition exec {A} (m : M A) (st : state) : state := snd (m st).

(** The events a step added to the trace. *)
Definition new_events (before after : state) : list event :=
  drop (length (trace before)) (trace after).

(** The files written directly under [dir], oldest first. *)
Fixpoint writes_under (dir : Path) (evs : list event) : list (Path * json) :=
  match evs with
  | [] => []
  | Wrote p c :: evs' =>
      if decide (parent p = dir) then (p, c) :: writes_under dir evs'
      else writes_under dir evs'
  | _ :: evs' => writes_under dir evs'
  end.

Fixpoint sleeps (evs : list event) : list Q :=
  match evs with
  | [] => []
  | Sleep d :: evs' => d :: sleeps evs'
  | _ :: evs' => sleeps evs'
  end.

Fixpoint fetched (evs : list event) : list string :=
  match evs with
  | [] => []
  | Fetch u _ :: evs' => u :: fetched evs'
  | _ :: evs' => fetched evs'
  end.

Fixpoint made_dirs (evs : list event) : list Path :=
  match evs with
  | [] => []
  | Mkdir p :: evs' => p :: made_dirs evs'
  | _ :: evs' => made_dirs evs'
  end.

(** Every file written, oldest first. *)
Fixpoint written (evs : list event) : list Path :=
  match evs with
  | [] => []
  | Wrote p _ :: evs' => p :: written evs'
  | _ :: evs' => written evs'
  end.

Definition empty_state : state :=
  {| fs := ∅; dirs := ∅; trace := []; fetches := 0; clock_reads := 0;
     random_draws := 0 |}.

(** ** Milestones of one iteration *)

(** The state once the article has been announced and requested. *)
Definition requested (strategy : LLMExtractionStrategy) (url : string)
    (st : state) : state :=
  note_fetch url (article_config strategy) (log (Printed (MsgProcessing url)) st).

(** The capture timestamp of an iteration that starts in [st]. *)
Definition capture_timestamp (W : World) (st : state) : string :=
  strftime (now W (clock_reads st)).

(** The state once the raw snapshot of a fetched article is on disk. *)
Definition captured (W : World) (strategy : LLMExtractionStrategy)
    (url : string) (r : CrawlResult) (st : state) : state :=
  let ts := capture_timestamp W st in
  log (Printed (MsgSavedRaw (raw_filename ts)))
    (store (raw_filename ts) (raw_content url r ts)
       (tick_clock (requested strategy url st))).

(** The delay drawn in state [st]. *)
Definition next_delay (W : World) (st : state) : Q :=
  two_plus (unit_interval (random_bits W (random_draws st))).

(** The state after the closing delay of an iteration. *)
Definition paused (W : World) (st : state) : state :=
  log (Sleep (next_delay W st))
    (log (Printed (MsgWaiting (next_delay W st))) (draw_random st)).

(** The state after the [except Exception] handler has reported [e]. *)
Definition reported (url : string) (e : exn) (st : state) : state :=
  log (Printed MsgTraceback) (log (Printed (MsgError url e)) st).

(** The record written for an extracted object [d]. *)
Definition processed_record (url ts : string) (m d : pydict) : pydict :=
  Dict.update d
    (required_fields url ts
       (Dict.get_default "title" (JStr "") m)
       (Dict.get_default "date" (JStr "") m)).

(** The directories exist. *)
Definition dirs_ready (st : state) : Prop :=
  raw_dir ∈ dirs st /\ processed_dir ∈ dirs st.

(** A JSON value that is not an object. *)
Definition not_object (v : json) : bool :=
  match v with JObj _ => false | _ => true end.

(** What the extraction stage may leave behind when it takes [st] to
    [st'] through the events [evs]: at most the processed file. *)
Definition extraction_footprint (ts : string) (st st' : state)
    (evs : list event) : Prop :=
  trace st' = trace st ++ evs /\
  (written evs = [] \/ written evs = [processed_filename ts]) /\
  sleeps evs = [] /\ fetched evs = [] /\ made_dirs evs = [] /\
  dirs st' = dirs st /\ random_draws st' = random_draws st /\
  forall p, p <> processed_filename ts -> fs st' !! p = fs st !! p.

(** What one iteration for [url] may leave behind when it takes [st] to
    [st'] through the events [evs]: one request, at most the raw file and
    then the processed file of its capture timestamp, at most one delay. *)
Definition iteration_footprint (W : World) (url : string) (st st' : state)
    (evs : list event) : Prop :=
  let ts := capture_timestamp W st in
  trace st' = trace st ++ evs /\
  fetched evs = [url] /\ made_dirs evs = [] /\
  (written evs = [] \/ written evs = [raw_filename ts] \/
   written evs = [raw_filename ts; processed_filename ts]) /\
  (sleeps evs = [] \/ sleeps evs = [next_delay W st]) /\
  dirs st' = dirs st.

(** The state in which the loop of a run from [st] starts, when the root
    page is [r]. *)
Definition loop_start (r : CrawlResult) (st : state) : state :=
  log (Printed (MsgFound (length (article_urls r))))
    (note_fetch root_url root_config
       (make_dirs processed_dir (make_dirs raw_dir st))).

(** The state of a run that started in [st0], found [root] at the root
    and has since gone through the URLs [done]. *)
Definition in_loop (W : World) (strategy : LLMExtractionStrategy)
    (root : CrawlResult) (st0 : state) (done : list string) : state :=
  exec (for_each done (article_iteration W strategy)) (loop_start root st0).

(** ** Sample worlds *)

Module Sample.

Definition q : string := String "034"%char "".

(** The JSON text of an object with a guessed title and date. *)
Definition object_text : string :=
  "{" ++ q ++ "title" ++ q ++ ": " ++ q ++ "guess" ++ q ++ ", "
      ++ q ++ "date_published" ++ q ++ ": null, "
      ++ q ++ "summary" ++ q ++ ": " ++ q ++ "rollups" ++ q ++ "}".

Definition object_value : json :=
  JObj [ ("title", JStr "guess");
         ("date_published", JNull);
         ("summary", JStr "rollups") ].

(** [json.loads] on the three texts the sample worlds hand out. *)
Definition loads (s : string) : string + json :=
  if String.eqb s object_text then inr object_value
  else if String.eqb s "[]" then inr (JArr [])
  else inl "Expecting value: line 1 column 1 (char 0)".

Definition url_a : string := "https://vitalik.eth.limo/posts/a".
Definition url_b : string := "https://vitalik.eth.limo/general/b".

Definition root_page : CrawlResult :=
  {| success := true; error_message := ""; html := "<html>index</html>";
     markdown := "index"; metadata := Some [];
     extracted_content := None;
     links :=
       [ ("internal",
          [ {| href := "/posts/a"; text := "A" |};
            {| href := "https://vitalik.eth.limo/general/b"; text := "B" |};
            {| href := "/about"; text := "About" |} ]);
         ("external",
          [ {| href := "https://elsewhere.example/posts/x";
               text := "X" |} ]) ] |}.

Definition page (body meta_title : string) (extracted : option string)
    : CrawlResult :=
  {| success := true; error_message := "";
     html := "<html>" ++ body ++ "</html>"; markdown := body;
     metadata := Some [("title", JStr meta_title)];
     extracted_content := extracted; links := [] |}.

Definition failed (msg : string) : CrawlResult :=
  {| success := false; error_message := msg; html := ""; markdown := "";
     metadata := None; extracted_content := None; links := [] |}.

Definition at_second (s us : N) : datetime :=
  {| year := 2024; month := 3; day := 9; hour := 14; minute := 5;
     second := s; microsecond := us |}.

(** A root page whose only matching link is filed as external. *)
Definition external_only_page : CrawlResult :=
  {| success := true; error_message := ""; html := "<html>index</html>";
     markdown := "index"; metadata := Some [];
     extracted_content := None;
     links :=
       [ ("internal", []);
         ("external",
          [ {| href := "https://elsewhere.example/posts/x";
               text := "X" |} ]) ] |}.

(** A world that serves [root] at the root, [a] and [b] at the two
    article URLs, and a failure elsewhere. *)
Definition world (key : option string) (root a b : CrawlResult)
    (clock : nat -> datetime) : World :=
  {| environ := fun k =>
       if String.eqb k "OPENAI_API_KEY" then key else None;
     arun := fun _ url _ =>
       if String.eqb url root_url then inr root
       else if String.eqb url url_a then inr a
       else if String.eqb url url_b then inr b
       else inr (failed "net::ERR_NAME_NOT_RESOLVED");
     now := clock;
     random_bits := fun n => (N.of_nat n * 2 ^ 52)%N;
     json_loads := loads |}.

(** Readings three seconds apart. *)
Definition spaced_clock (n : nat) : datetime :=
  at_second (3 * N.of_nat n) 250000.

(** Two readings inside the same second. *)
Definition fast_clock (n : nat) : datetime :=
  at_second 7 (100000 + 800000 * N.of_nat n).

Definition page_a : CrawlResult :=
  page "post a" "Post A" (Some object_text).
Definition page_b : CrawlResult :=
  page "post b" "Post B" (Some object_text).

(** The extractor's output is not JSON. *)
Definition page_a_refused : CrawlResult :=
  page "post a" "Post A" (Some "Sorry, I cannot help with that.").

(** The extractor's output is a JSON array. *)
Definition page_a_array : CrawlResult :=
  page "post a" "Post A" (Some "[]").

(** Both articles fetched and extracted. *)
Definition W_ok : World :=
  world (Some "sk-test") root_page page_a page_b spaced_clock.

(** The fetch of the first article reports failure. *)
Definition W_fetch_failed : World :=
  world (Some "sk-test") root_page (failed "timeout") page_b spaced_clock.

(** The extractor's output for the first article is not JSON. *)
Definition W_bad_json : World :=
  world (Some "sk-test") root_page page_a_refused page_b spaced_clock.

(** The extractor's output for the first article is a JSON array, and
    the second article is captured within the same second. *)
Definition W_array : World :=
  world (Some "sk-test") root_page page_a_array page_b fast_clock.

(** No credential in the environment. *)
Definition W_no_key : World :=
  world None root_page page_a page_b spaced_clock.

(** The root page has no internal links. *)
Definition W_external_only : World :=
  world (Some "sk-test") external_only_page page_a page_b spaced_clock.

Definition strategy : LLMExtractionStrategy := make_strategy "sk-test".

(** The state in which the loop starts: directories made, root fetched
    and the count printed. *)
Definition ready : state := loop_start root_page empty_state.

End Sample.

(** ** The run as a whole *)

(** The effect of one event on the files: a write creates or replaces. *)
Definition apply_event (files : gmap Path json) (e : event)
    : gmap Path json :=
  match e with
  | Wrote p content => <[p := content]> files
  | _ => files
  end.

(** The files left by a sequence of events. *)
Definition replay (evs : list event) (files : gmap Path json)
    : gmap Path json :=
  fold_left apply_event evs files.

(** The configuration of every request, oldest first. *)
Fixpoint fetch_configs (evs : list event) : list CrawlerRunConfig :=
  match evs with
  | [] => []
  | Fetch _ cfg :: evs' => cfg :: fetch_configs evs'
  | _ :: evs' => fetch_configs evs'
  end.

(** [st'] is [st] after the events [evs]: the trace grew by them, the
    files are the old ones with the writes replayed, and no directory
    went away. *)
Definition steps (st st' : state) (evs : list event) : Prop :=
  trace st' = trace st ++ evs /\
  fs st' = replay evs (fs st) /\
  dirs st ⊆ dirs st'.

(** A computation that keeps trace and files in step, whatever it
    returns or raises. *)
Definition disciplined {A} (m : M A) : Prop :=
  forall st, exists evs, steps st (snd (m st)) evs.

(** The events of a whole run of the script. *)
Definition run_events (W : World) (st : state) : list event :=
  new_events st (snd (main W st)).

(** [d.keys()] *)
Definition keys (d : pydict) : list string := map fst d.

(** [c[k]] for a JSON object [c]. *)
Definition field (k : string) (c : json) : option json :=
  match c with JObj d => Dict.get k d | _ => None end.

(** [k in d] *)
Definition has_key (k : string) (d : pydict) : bool :=
  existsb (String.eqb k) (keys d).

(** Those of [ks], in their order, that are not keys of [d]. *)
Definition missing_from (d : pydict) (ks : list string) : list string :=
  List.filter (fun k => negb (has_key k d)) ks.

(** The delay window, both ends included. *)
Definition in_window (d : Q) : Prop := (2 <= d)%Q /\ (d <= 3)%Q.

(** The traces one turn of the loop can leave, for [url] from state
    [st]: the request raised (or the raw directory was missing), the
    fetch reported failure, nothing was extracted, the extractor's output
    did not decode, the merge raised, or the record was saved. *)
Inductive iteration_trace (W : World) (strategy : LLMExtractionStrategy)
    (url : string) (st : state) : list event -> Prop :=
| it_cut_short (e : exn) :
    iteration_trace W strategy url st
      [ Printed (MsgProcessing url); Fetch url (article_config strategy);
        Printed (MsgError url e); Printed MsgTraceback ]
| it_fetch_failed (msg : string) :
    iteration_trace W strategy url st
      [ Printed (MsgProcessing url); Fetch url (article_config strategy);
        Printed (MsgFailed url msg) ]
| it_raw_only (snapshot : json) :
    iteration_trace W strategy url st
      [ Printed (MsgProcessing url); Fetch url (article_config strategy);
        Wrote (raw_filename (capture_timestamp W st)) snapshot;
        Printed (MsgSavedRaw (raw_filename (capture_timestamp W st)));
        Printed (MsgWaiting (next_delay W st)); Sleep (next_delay W st) ]
| it_undecodable (snapshot : json) (e : exn) (content : string) :
    iteration_trace W strategy url st
      [ Printed (MsgProcessing url); Fetch url (article_config strategy);
        Wrote (raw_filename (capture_timestamp W st)) snapshot;
        Printed (MsgSavedRaw (raw_filename (capture_timestamp W st)));
        Printed (MsgDecodeError e); Printed (MsgRawExtracted content);
        Printed (MsgWaiting (next_delay W st)); Sleep (next_delay W st) ]
| it_merge_raised (snapshot : json) (e : exn) :
    iteration_trace W strategy url st
      [ Printed (MsgProcessing url); Fetch url (article_config strategy);
        Wrote (raw_filename (capture_timestamp W st)) snapshot;
        Printed (MsgSavedRaw (raw_filename (capture_timestamp W st)));
        Printed (MsgError url e); Printed MsgTraceback ]
| it_processed (snapshot record : json) :
    iteration_trace W strategy url st
      [ Printed (MsgProcessing url); Fetch url (article_config strategy);
        Wrote (raw_filename (capture_timestamp W st)) snapshot;
        Printed (MsgSavedRaw (raw_filename (capture_timestamp W st)));
        Wrote (processed_filename (capture_timestamp W st)) record;
        Printed (MsgSavedProcessed
                   (processed_filename (capture_timestamp W st)));
        Printed (MsgWaiting (next_delay W st)); Sleep (next_delay W st) ].

(** The events of the loop over [urls] started in [st]. *)
Definition loop_events (W : World) (strategy : LLMExtractionStrategy)
    (urls : list string) (st : state) : list event :=
  new_events st (exec (for_each urls (article_iteration W strategy)) st).

(** A path the script may write to. *)
Definition output_path (p : Path) : Prop :=
  exists ts, p = raw_filename ts \/ p = processed_filename ts.

(** The extraction strategy a run builds from its environment. *)
Definition run_strategy (W : World) : LLMExtractionStrategy :=
  make_strategy (default "" (environ W "OPENAI_API_KEY")).

(** Compare by a first criterion, then by a second. *)
Definition then_by (c1 c2 : comparison) : comparison :=
  match c1 with Eq => c2 | _ => c1 end.

(** The order of two clock readings, to the second. *)
Definition compare_seconds (a b : datetime) : comparison :=
  then_by (year a ?= year b)%N
    (then_by (month a ?= month b)%N
       (then_by (day a ?= day b)%N
          (then_by (hour a ?= hour b)%N
             (then_by (minute a ?= minute b)%N
                (second a ?= second b)%N)))).

(** More sample worlds. *)
Module Sample2.

Import Sample.

(** The fetch engine raises on every request. *)
Definition W_root_down : World :=
  {| environ := environ W_ok;
     arun := fun _ _ _ => inl (EngineError "net::ERR_CONNECTION_REFUSED");
     now := now W_ok;
     random_bits := random_bits W_ok;
     json_loads := json_loads W_ok |}.

(** The fetch engine raises on the first article only. *)
Definition W_fetch_raises : World :=
  {| environ := environ W_ok;
     arun := fun n url cfg =>
       if String.eqb url url_a then inl (EngineError "Timeout 60000ms")
       else arun W_ok n url cfg;
     now := now W_ok;
     random_bits := random_bits W_ok;
     json_loads := json_loads W_ok |}.

(** A fetched page for which the extractor returned nothing. *)
Definition page_a_unextracted : CrawlResult :=
  page "post a" "Post A" None.

(** A fetched page without metadata. *)
Definition page_a_bare : CrawlResult :=
  {| success := true; error_message := "";
     html := "<html>post a</html>"; markdown := "post a";
     metadata := None;
     extracted_content := Some object_text; links := [] |}.

Definition W_unextracted : World :=
  world (Some "sk-test") root_page page_a_unextracted page_b spaced_clock.

Definition W_bare : World :=
  world (Some "sk-test") root_page page_a_bare page_b spaced_clock.

(** A root page that lists the same article twice. *)
Definition twice_page : CrawlResult :=
  {| success := true; error_message := ""; html := "<html>index</html>";
     markdown := "index"; metadata := Some [];
     extracted_content := None;
     links :=
       [ ("internal",
          [ {| href := "/posts/a"; text := "A" |};
            {| href := "/posts/a"; text := "A again" |} ]) ] |}.

End Sample2.

(** * Properties *)

(** ** Strings *)

Section Strings.

Lemma contains_prepend (sub p s : string) :
  PyStr.contains sub s = true -> PyStr.contains sub (p ++ s) = true.
Proof.
  intros Hs. induction p as [|c p IH]; simpl.
  - exact Hs.
  - rewrite IH. apply orb_true_r.
Qed.

Lemma append_inj (a a' b b' : string) :
  String.length a = String.length a' ->
  (a +:+ b = a' +:+ b') -> a = a' /\ b = b'.
Proof.
  revert a'. induction a as [|c a IH]; intros [|c' a'] Hlen Heq;
    simpl in *; try discriminate.
  - split; [reflexivity | exact Heq].
  - injection Hlen as Hlen. injection Heq as Hc Heq.
    destruct (IH a' Hlen Heq) as [-> ->]. subst. split; reflexivity.
Qed.

Lemma length_append (a b : string) :
  String.length (a +:+ b) = String.length a + String.length b.
Proof. induction a; simpl; auto. Qed.

Lemma append_inj_l (a b b' : string) : a +:+ b = a +:+ b' -> b = b'.
Proof. intros H. now apply (append_inj a a b b') in H. Qed.

Lemma append_inj_r (a a' b : string) : a +:+ b = a' +:+ b -> a = a'.
Proof.
  intros H.
  assert (Hlen : String.length a = String.length a').
  { apply (f_equal String.length) in H.
    rewrite !length_append in H. lia. }
  now apply (append_inj a a' b b) in H.
Qed.

End Strings.

(** ** Dicts *)

Section Dicts.

Lemma get_set_eq (k : string) (v : json) (d : pydict) :
  Dict.get k (Dict.set k v d) = Some v.
Proof.
  induction d as [|[k' v'] d IH]; simpl.
  - now rewrite String.eqb_refl.
  - destruct (String.eqb k k') eqn:E; simpl; rewrite ?String.eqb_refl, ?E;
      auto.
Qed.

Lemma get_set_ne (k k' : string) (v : json) (d : pydict) :
  k <> k' -> Dict.get k' (Dict.set k v d) = Dict.get k' d.
Proof.
  intros Hne. induction d as [|[k0 v0] d IH]; simpl.
  - destruct (String.eqb k' k) eqn:E; [|reflexivity].
    apply String.eqb_eq in E. congruence.
  - destruct (String.eqb k k0) eqn:E; simpl.
    + apply String.eqb_eq in E. subst k0.
      destruct (String.eqb k' k) eqn:E'; [|reflexivity].
      apply String.eqb_eq in E'. congruence.
    + now rewrite IH.
Qed.

(** After [d.update(required_fields ...)] the four merged keys hold the
    merged values and every other key is as it was in [d]. *)
Lemma update_required_fields (d : pydict) (url ts : string)
    (title date : json) :
  let d' := Dict.update d (required_fields url ts title date) in
  Dict.get "url" d' = Some (JStr url) /\
  Dict.get "crawl_date" d' = Some (JStr ts) /\
  Dict.get "title" d' = Some title /\
  Dict.get "date_published" d' = Some date /\
  forall k, k <> "url" -> k <> "crawl_date" -> k <> "title" ->
            k <> "date_published" -> Dict.get k d' = Dict.get k d.
Proof.
  unfold Dict.update, required_fields; simpl.
  repeat split.
  - rewrite !get_set_ne by discriminate. apply get_set_eq.
  - rewrite !get_set_ne by discriminate. apply get_set_eq.
  - rewrite !get_set_ne by discriminate. apply get_set_eq.
  - apply get_set_eq.
  - intros k H1 H2 H3 H4. rewrite !get_set_ne by congruence. reflexivity.
Qed.

End Dicts.

(** ** Timestamps *)

Section Timestamps.

Lemma digit_inj (a b : N) :
  digit a = digit b -> (a mod 10 = b mod 10)%N.
Proof.
  unfold digit. intros H.
  assert (Ha : (a mod 10 < 10)%N) by (apply N.mod_lt; lia).
  assert (Hb : (b mod 10 < 10)%N) by (apply N.mod_lt; lia).
  apply (f_equal N_of_ascii) in H.
  rewrite !N_ascii_embedding in H by lia. lia.
Qed.

Lemma fixed_length (w : nat) (n : N) : String.length (fixed w n) = w.
Proof. revert n. induction w; intros n; simpl; auto. Qed.

(** Equal renderings in [w] digits mean equal numbers modulo [10^w]. *)
Lemma fixed_inj_mod (w : nat) (n m : N) :
  fixed w n = fixed w m ->
  (n mod 10 ^ N.of_nat w = m mod 10 ^ N.of_nat w)%N.
Proof.
  induction w as [|w IH]; intros H.
  - simpl. now rewrite !N.mod_1_r.
  - cbn [fixed] in H. injection H as Hd Ht.
    apply digit_inj in Hd. apply IH in Ht.
    rewrite Nat2N.inj_succ, N.pow_succ_r', (N.mul_comm 10).
    rewrite !N.Div0.mod_mul_r. congruence.
Qed.

Lemma fixed_inj (w : nat) (n m : N) :
  (n < 10 ^ N.of_nat w)%N -> (m < 10 ^ N.of_nat w)%N ->
  fixed w n = fixed w m -> n = m.
Proof.
  intros Hn Hm H. apply fixed_inj_mod in H.
  now rewrite !N.mod_small in H.
Qed.

Lemma valid_datetime_bounds (d : datetime) :
  valid_datetime d = true ->
  (year d < 10000 /\ month d < 100 /\ day d < 100 /\
   hour d < 100 /\ minute d < 100 /\ second d < 100)%N.
Proof.
  unfold valid_datetime. rewrite !andb_true_iff, !N.leb_le. lia.
Qed.

(** The timestamp determines the second of capture, and nothing finer. *)
Lemma strftime_eq_iff (a b : datetime) :
  valid_datetime a = true -> valid_datetime b = true ->
  (strftime a = strftime b <-> same_second a b).
Proof.
  intros Ha Hb.
  apply valid_datetime_bounds in Ha as (Ay & Am & Ad & AH & AM & AS).
  apply valid_datetime_bounds in Hb as (By & Bm & Bd & BH & BM & BS).
  split.
  - unfold strftime. intros H.
    apply append_inj in H as [Hy H]; [|now rewrite !fixed_length].
    apply append_inj in H as [Hm H]; [|now rewrite !fixed_length].
    apply append_inj in H as [Hd H]; [|now rewrite !fixed_length].
    apply append_inj in H as [_ H]; [|reflexivity].
    apply append_inj in H as [HH H]; [|now rewrite !fixed_length].
    apply append_inj in H as [HM HS]; [|now rewrite !fixed_length].
    repeat split; (eapply fixed_inj; [| |eassumption]); assumption.
  - intros (Hy & Hm & Hd & HH & HM & HS). unfold strftime. congruence.
Qed.

Lemma raw_filename_inj (t t' : string) :
  raw_filename t = raw_filename t' -> t = t'.
Proof.
  unfold raw_filename, path_div. intros H.
  apply app_inj_tail in H as [_ H].
  apply append_inj_l in H. now apply append_inj_r in H.
Qed.

Lemma processed_filename_inj (t t' : string) :
  processed_filename t = processed_filename t' -> t = t'.
Proof.
  unfold processed_filename, path_div. intros H.
  apply app_inj_tail in H as [_ H].
  apply append_inj_l in H. now apply append_inj_r in H.
Qed.

End Timestamps.

(** ** Evaluating one iteration *)

Section Iteration.

Variable W : World.
Variable strategy : LLMExtractionStrategy.

Ltac run :=
  unfold article_iteration, process_article, save_processed_if_available,
    save_processed, metadata_get, try_except, bind, ret, raise, print,
    crawler_arun, datetime_now, random_random, asyncio_sleep, write_json;
  cbn [fetches clock_reads random_draws dirs log note_fetch tick_clock
       draw_random store].

(** *** The extraction stage (lines 110-128) *)

Lemma extraction_absent url r ts st :
  PyStr.truthy_opt (extracted_content r) = false ->
  save_processed_if_available W url r ts st = (Ok tt, st).
Proof.
  unfold save_processed_if_available.
  destruct (extracted_content r) as [c|]; simpl; [|reflexivity].
  now intros ->.
Qed.

Lemma extraction_undecodable url r ts st c msg :
  extracted_content r = Some c -> PyStr.truthy c = true ->
  json_loads W c = inl msg ->
  save_processed_if_available W url r ts st =
    (Ok tt, log (Printed (MsgRawExtracted c))
              (log (Printed (MsgDecodeError (JSONDecodeError msg))) st)).
Proof. intros Hc Ht Hl. run. now rewrite Hc, Ht, Hl. Qed.

Lemma extraction_not_object url r ts st c v :
  extracted_content r = Some c -> PyStr.truthy c = true ->
  json_loads W c = inr v -> not_object v = true ->
  save_processed_if_available W url r ts st =
    (Raise (AttributeError "object has no attribute 'update'"), st).
Proof.
  intros Hc Ht Hl Hv. run. rewrite Hc, Ht, Hl.
  destruct v; try discriminate; reflexivity.
Qed.

Lemma extraction_no_metadata url r ts st c d :
  extracted_content r = Some c -> PyStr.truthy c = true ->
  json_loads W c = inr (JObj d) -> metadata r = None ->
  save_processed_if_available W url r ts st =
    (Raise (AttributeError "'NoneType' object has no attribute 'get'"), st).
Proof. intros Hc Ht Hl Hm. run. now rewrite Hc, Ht, Hl, Hm. Qed.

Lemma extraction_saved url r ts st c d m :
  extracted_content r = Some c -> PyStr.truthy c = true ->
  json_loads W c = inr (JObj d) -> metadata r = Some m ->
  processed_dir ∈ dirs st ->
  save_processed_if_available W url r ts st =
    (Ok tt,
     log (Printed (MsgSavedProcessed (processed_filename ts)))
       (store (processed_filename ts)
          (JObj (processed_record url ts m d)) st)).
Proof.
  intros Hc Ht Hl Hm Hd. run. rewrite Hc, Ht, Hl, Hm.
  change (parent (processed_filename ts)) with processed_dir.
  destruct (decide (processed_dir ∈ dirs st)); [reflexivity|contradiction].
Qed.

Lemma extraction_no_directory url r ts st c d m :
  extracted_content r = Some c -> PyStr.truthy c = true ->
  json_loads W c = inr (JObj d) -> metadata r = Some m ->
  processed_dir ∉ dirs st ->
  save_processed_if_available W url r ts st =
    (Raise (FileNotFoundError (processed_filename ts)), st).
Proof.
  intros Hc Ht Hl Hm Hd. run. rewrite Hc, Ht, Hl, Hm.
  change (parent (processed_filename ts)) with processed_dir.
  destruct (decide (processed_dir ∈ dirs st)); [contradiction|reflexivity].
Qed.

(** *** The body of the outer [try] (lines 79-133) *)

Lemma process_fetch_raises url st e :
  arun W (fetches st) url (article_config strategy) = inl e ->
  process_article W strategy url st =
    (Raise e, requested strategy url st).
Proof. intros Hf. run. now rewrite Hf. Qed.

Lemma process_fetch_failed url st r :
  arun W (fetches st) url (article_config strategy) = inr r ->
  success r = false ->
  process_article W strategy url st =
    (Ok tt, log (Printed (MsgFailed url (error_message r)))
              (requested strategy url st)).
Proof. intros Hf Hs. run. now rewrite Hf, Hs. Qed.

Ltac run_to_raw_write Hf Hs :=
  unfold process_article, bind, print, crawler_arun, datetime_now,
    write_json;
  cbn [fetches clock_reads dirs log note_fetch tick_clock];
  rewrite Hf, Hs; cbn [negb];
  change (parent (raw_filename ?t)) with raw_dir;
  match goal with
  | |- context [dirs (note_fetch _ _ (log _ ?st))] =>
      change (dirs (note_fetch _ _ (log _ st))) with (dirs st);
      change (strftime (now W (clock_reads (note_fetch _ _ (log _ st)))))
        with (capture_timestamp W st)
  end.

Lemma process_no_directory url st r :
  arun W (fetches st) url (article_config strategy) = inr r ->
  success r = true ->
  raw_dir ∉ dirs st ->
  process_article W strategy url st =
    (Raise (FileNotFoundError (raw_filename (capture_timestamp W st))),
     tick_clock (requested strategy url st)).
Proof.
  intros Hf Hs Hd. run_to_raw_write Hf Hs.
  destruct (decide (raw_dir ∈ dirs st)); [contradiction|reflexivity].
Qed.

Lemma process_fetched url st r :
  arun W (fetches st) url (article_config strategy) = inr r ->
  success r = true ->
  raw_dir ∈ dirs st ->
  process_article W strategy url st =
    match save_processed_if_available W url r (capture_timestamp W st)
            (captured W strategy url r st) with
    | (Ok _, st') => (Ok tt, paused W st')
    | (Raise e, st') => (Raise e, st')
    end.
Proof.
  intros Hf Hs Hd. run_to_raw_write Hf Hs.
  destruct (decide (raw_dir ∈ dirs st)); [|contradiction].
  change (log _ (store _ _ (tick_clock (note_fetch _ _ (log _ st)))))
    with (captured W strategy url r st).
  destruct (save_processed_if_available W url r (capture_timestamp W st)
              (captured W strategy url r st)) as [[[]|ex] st']; reflexivity.
Qed.

(** *** The whole iteration (lines 78-139) *)

(** The generic handler reports whatever the body raised. *)
Lemma iteration_of_process url st :
  article_iteration W strategy url st =
    match process_article W strategy url st with
    | (Ok _, st') => (Ok tt, st')
    | (Raise e, st') => (Ok tt, reported url e st')
    end.
Proof.
  unfold article_iteration, try_except.
  destruct (process_article W strategy url st) as [[[]|ex] st'];
    reflexivity.
Qed.

Lemma iteration_fetch_raises url st e :
  arun W (fetches st) url (article_config strategy) = inl e ->
  article_iteration W strategy url st =
    (Ok tt, reported url e (requested strategy url st)).
Proof.
  intros Hf. now rewrite iteration_of_process, (process_fetch_raises _ _ e).
Qed.

Lemma iteration_fetch_failed url st r :
  arun W (fetches st) url (article_config strategy) = inr r ->
  success r = false ->
  article_iteration W strategy url st =
    (Ok tt, log (Printed (MsgFailed url (error_message r)))
              (requested strategy url st)).
Proof.
  intros Hf Hs.
  now rewrite iteration_of_process, (process_fetch_failed _ _ r).
Qed.

Lemma iteration_no_directory url st r :
  arun W (fetches st) url (article_config strategy) = inr r ->
  success r = true ->
  raw_dir ∉ dirs st ->
  article_iteration W strategy url st =
    (Ok tt,
     reported url (FileNotFoundError (raw_filename (capture_timestamp W st)))
       (tick_clock (requested strategy url st))).
Proof.
  intros Hf Hs Hd.
  now rewrite iteration_of_process, (process_no_directory _ _ r).
Qed.

Lemma iteration_fetched url st r :
  arun W (fetches st) url (article_config strategy) = inr r ->
  success r = true ->
  raw_dir ∈ dirs st ->
  article_iteration W strategy url st =
    match save_processed_if_available W url r (capture_timestamp W st)
            (captured W strategy url r st) with
    | (Ok _, st') => (Ok tt, paused W st')
    | (Raise e, st') => (Ok tt, reported url e st')
    end.
Proof.
  intros Hf Hs Hd.
  rewrite iteration_of_process, (process_fetched _ _ r) by assumption.
  destruct (save_processed_if_available W url r (capture_timestamp W st)
              (captured W strategy url r st)) as [[[]|ex] st']; reflexivity.
Qed.

End Iteration.

(** ** Traces *)

Section Traces.

Lemma new_events_intro (st st' : state) (evs : list event) :
  trace st' = trace st ++ evs -> new_events st st' = evs.
Proof. unfold new_events. intros ->. apply drop_app_length. Qed.

Lemma writes_under_app dir (a b : list event) :
  writes_under dir (a ++ b) = writes_under dir a ++ writes_under dir b.
Proof.
  induction a as [|[| |? ?|p c|] a IH]; simpl; auto.
  destruct (decide (parent p = dir)); simpl; now rewrite IH.
Qed.

Lemma written_app (a b : list event) :
  written (a ++ b) = written a ++ written b.
Proof. induction a as [|[] a IH]; simpl; auto. now rewrite IH. Qed.

Lemma sleeps_app (a b : list event) :
  sleeps (a ++ b) = sleeps a ++ sleeps b.
Proof. induction a as [|[] a IH]; simpl; auto. now rewrite IH. Qed.

Lemma fetched_app (a b : list event) :
  fetched (a ++ b) = fetched a ++ fetched b.
Proof. induction a as [|[] a IH]; simpl; auto. now rewrite IH. Qed.

Lemma made_dirs_app (a b : list event) :
  made_dirs (a ++ b) = made_dirs a ++ made_dirs b.
Proof. induction a as [|[] a IH]; simpl; auto. now rewrite IH. Qed.

Lemma raw_is_not_processed (t t' : string) :
  raw_filename t <> processed_filename t'.
Proof. discriminate. Qed.

Lemma trace_requested s url st :
  trace (requested s url st) =
    trace st ++ [Printed (MsgProcessing url); Fetch url (article_config s)].
Proof. simpl. now rewrite <- app_assoc. Qed.

Lemma trace_captured W s url r st :
  trace (captured W s url r st) =
    trace st ++
      [ Printed (MsgProcessing url); Fetch url (article_config s);
        Wrote (raw_filename (capture_timestamp W st))
              (raw_content url r (capture_timestamp W st));
        Printed (MsgSavedRaw (raw_filename (capture_timestamp W st))) ].
Proof. simpl. now rewrite <- !app_assoc. Qed.

Lemma trace_paused W st :
  trace (paused W st) =
    trace st ++ [Printed (MsgWaiting (next_delay W st));
                 Sleep (next_delay W st)].
Proof. simpl. now rewrite <- app_assoc. Qed.

Lemma trace_reported url e st :
  trace (reported url e st) =
    trace st ++ [Printed (MsgError url e); Printed MsgTraceback].
Proof. simpl. now rewrite <- app_assoc. Qed.

End Traces.

(** ** Frames *)

Section Frames.

Variable W : World.
Variable strategy : LLMExtractionStrategy.

Lemma written_are_writes dir (evs : list event) :
  written evs = [] -> writes_under dir evs = [].
Proof.
  induction evs as [|[] evs IH]; simpl; auto. discriminate.
Qed.

Lemma writes_under_other dir (evs : list event) p :
  written evs = [p] -> parent p <> dir -> writes_under dir evs = [].
Proof.
  induction evs as [|[| | |p' c|] evs IH]; simpl; auto; try discriminate.
  intros [= -> Hw] Hp.
  destruct (decide (parent p = dir)); [contradiction|].
  now apply written_are_writes.
Qed.

(** Whatever the extractor returned, the extraction stage touches no
    file but the processed one, fetches nothing and does not sleep. *)
Lemma extraction_frame url r ts st :
  exists evs,
    extraction_footprint ts st
      (exec (save_processed_if_available W url r ts) st) evs.
Proof.
  unfold exec, extraction_footprint.
  destruct (PyStr.truthy_opt (extracted_content r)) eqn:Ht.
  2:{ rewrite extraction_absent by assumption. exists []. simpl.
      rewrite app_nil_r. tauto. }
  destruct (extracted_content r) as [c|] eqn:Hc; [|discriminate].
  simpl in Ht.
  destruct (json_loads W c) as [msg|v] eqn:Hl.
  { erewrite extraction_undecodable by eassumption.
    eexists [_; _]. simpl. rewrite <- app_assoc. simpl. tauto. }
  destruct (not_object v) eqn:Hv.
  { erewrite extraction_not_object by eassumption. exists []. simpl.
    rewrite app_nil_r. tauto. }
  destruct v as [| | | | |d]; try discriminate.
  destruct (metadata r) as [m|] eqn:Hm.
  2:{ erewrite extraction_no_metadata by eassumption. exists []. simpl.
      rewrite app_nil_r. tauto. }
  destruct (decide (processed_dir ∈ dirs st)) as [Hd|Hd].
  - erewrite extraction_saved by eassumption.
    eexists [_; _]. simpl. rewrite <- app_assoc. simpl.
    repeat split; auto.
    intros p Hp. now rewrite lookup_insert_ne.
  - erewrite extraction_no_directory by eassumption. exists []. simpl.
    rewrite app_nil_r. tauto.
Qed.

(** The outcome and the final state of an iteration whose fetch
    succeeded and whose raw directory exists. *)
Lemma iteration_fetched_frame url st r :
  arun W (fetches st) url (article_config strategy) = inr r ->
  success r = true ->
  raw_dir ∈ dirs st ->
  exists evs closing st2,
    extraction_footprint (capture_timestamp W st)
      (captured W strategy url r st) st2 evs /\
    article_iteration W strategy url st = (Ok tt, closing) /\
    fs closing = fs st2 /\
    ((exists e, closing = reported url e st2) \/ closing = paused W st2).
Proof.
  intros Hf Hs Hd. rewrite (iteration_fetched W strategy url st r Hf Hs Hd).
  destruct (extraction_frame url r (capture_timestamp W st)
              (captured W strategy url r st)) as [evs Hfp].
  unfold exec in Hfp.
  destruct (save_processed_if_available W url r (capture_timestamp W st)
              (captured W strategy url r st)) as [[[]|ex] st2];
    simpl in Hfp; exists evs; eexists; exists st2;
    (split; [exact Hfp|]); (split; [reflexivity|]); split; eauto.
Qed.

End Frames.

(** ** The raw snapshot *)

Section RawSnapshot.

Variable W : World.
Variable strategy : LLMExtractionStrategy.

(** One iteration, started where the raw directory exists: a successful
    fetch leaves exactly one write under the raw directory, whatever the
    extractor returned. *)
Lemma raw_snapshot_step (url : string) (st : state) (r : CrawlResult) :
  arun W (fetches st) url (article_config strategy) = inr r ->
  success r = true ->
  raw_dir ∈ dirs st ->
  let ts := capture_timestamp W st in
  let st' := exec (article_iteration W strategy url) st in
  let snapshot :=
    JObj [ ("url", JStr url); ("html", JStr (html r));
           ("markdown", JStr (markdown r));
           ("metadata", json_of_metadata (metadata r));
           ("crawl_date", JStr ts) ] in
  writes_under raw_dir (new_events st st')
    = [(raw_dir // ("raw_" +:+ ts +:+ ".json"), snapshot)] /\
  fs st' !! (raw_dir // ("raw_" +:+ ts +:+ ".json")) = Some snapshot.
Proof.
  intros Hf Hs Hd ts st' snapshot.
  destruct (iteration_fetched_frame W strategy url st r Hf Hs Hd)
    as (evs & closing & st2 & Hfp & Hrun & Hfs & Hclose).
  destruct Hfp as (Htr & Hw & _ & _ & _ & _ & _ & Hother).
  assert (Hst' : st' = closing) by (unfold st', exec; now rewrite Hrun).
  assert (Hnone : writes_under raw_dir evs = []).
  { destruct Hw as [Hw|Hw].
    - now apply written_are_writes.
    - eapply writes_under_other; [exact Hw|discriminate]. }
  split.
  - rewrite Hst'.
    assert (exists tail, trace closing = trace st2 ++ tail /\
                         writes_under raw_dir tail = []) as (tail & Ht & Hn).
    { destruct Hclose as [[e ->]| ->]; eexists; split;
        [apply trace_reported|reflexivity|apply trace_paused|reflexivity]. }
    erewrite new_events_intro.
    2:{ rewrite Ht, Htr, trace_captured, <- !app_assoc. reflexivity. }
    rewrite !writes_under_app, Hnone, Hn. reflexivity.
  - rewrite Hst', Hfs, Hother by apply raw_is_not_processed.
    simpl. apply lookup_insert_eq.
Qed.

End RawSnapshot.

(** ** The loop *)

Section Loop.

Variable W : World.
Variable strategy : LLMExtractionStrategy.

(** The [except Exception] handler turns every error of an iteration
    into a report. *)
Lemma iteration_never_raises url st :
  fst (article_iteration W strategy url st) = Ok tt.
Proof.
  unfold article_iteration, try_except.
  destruct (process_article W strategy url st) as [[[]|ex] st'];
    reflexivity.
Qed.

Lemma loop_step url rest st :
  for_each (url :: rest) (article_iteration W strategy) st =
  for_each rest (article_iteration W strategy)
    (exec (article_iteration W strategy url) st).
Proof.
  cbn [for_each]. unfold bind, exec.
  pose proof (iteration_never_raises url st) as H.
  destruct (article_iteration W strategy url st) as [[[]|ex] st'];
    simpl in *; [reflexivity|discriminate].
Qed.

Lemma loop_never_raises urls st :
  fst (for_each urls (article_iteration W strategy) st) = Ok tt.
Proof.
  revert st. induction urls as [|u urls IH]; intros st; [reflexivity|].
  rewrite loop_step. apply IH.
Qed.

Lemma iteration_keeps_dirs url st :
  dirs (exec (article_iteration W strategy url) st) = dirs st.
Proof.
  unfold exec.
  destruct (arun W (fetches st) url (article_config strategy))
    as [e|r] eqn:Hf.
  { now rewrite iteration_fetch_raises with (e := e). }
  destruct (success r) eqn:Hs.
  2:{ now rewrite iteration_fetch_failed with (r := r). }
  destruct (decide (raw_dir ∈ dirs st)) as [Hd|Hd].
  2:{ now rewrite iteration_no_directory with (r := r). }
  destruct (iteration_fetched_frame W strategy url st r Hf Hs Hd)
    as (evs & closing & st2 & Hfp & -> & _ & Hclose).
  destruct Hfp as (_ & _ & _ & _ & _ & Hdirs & _).
  destruct Hclose as [[e ->]| ->]; simpl; rewrite Hdirs; reflexivity.
Qed.

(** Once made, the directories stay for the whole loop. *)
Lemma loop_keeps_dirs urls st :
  dirs (exec (for_each urls (article_iteration W strategy)) st) = dirs st.
Proof.
  revert st. induction urls as [|u urls IH]; intros st; [reflexivity|].
  unfold exec in *. rewrite loop_step, IH. apply iteration_keeps_dirs.
Qed.

End Loop.

Ltac events_of_run :=
  apply new_events_intro; cbn [snd];
  rewrite ?trace_paused, ?trace_reported;
  cbn [trace log store];
  rewrite ?trace_captured, ?trace_requested, <- ?app_assoc;
  reflexivity.

(** ** Fetch failures and extraction failures *)

Section Failures.

Variable W : World.
Variable strategy : LLMExtractionStrategy.

(** C3.  When the fetch of a URL reports failure, the iteration writes
    no file at all, leaves the file system as it was, and the loop goes
    on with the remaining URLs; the loop as a whole ends normally. *)
Theorem failed_fetch_is_skipped (url : string) (rest : list string)
    (st : state) (r : CrawlResult) :
  arun W (fetches st) url (article_config strategy) = inr r ->
  success r = false ->
  let st' := exec (article_iteration W strategy url) st in
  written (new_events st st') = [] /\
  writes_under raw_dir (new_events st st') = [] /\
  writes_under processed_dir (new_events st st') = [] /\
  fs st' = fs st /\
  for_each (url :: rest) (article_iteration W strategy) st =
    for_each rest (article_iteration W strategy) st' /\
  fst (for_each (url :: rest) (article_iteration W strategy) st) = Ok tt.
Proof.
  intros Hf Hs st'.
  assert (Hev : new_events st st' =
                [ Printed (MsgProcessing url);
                  Fetch url (article_config strategy);
                  Printed (MsgFailed url (error_message r)) ]).
  { unfold st', exec. rewrite (iteration_fetch_failed W strategy url st r Hf Hs).
    events_of_run. }
  rewrite Hev. repeat split.
  - unfold st', exec.
    now rewrite (iteration_fetch_failed W strategy url st r Hf Hs).
  - apply loop_step.
  - apply loop_never_raises.
Qed.

(** One iteration, started where the raw directory exists, whose
    extraction output [json.loads] rejects. *)
Lemma undecodable_extraction_step (url : string)
    (rest : list string) (st : state) (r : CrawlResult)
    (content msg : string) :
  arun W (fetches st) url (article_config strategy) = inr r ->
  success r = true ->
  raw_dir ∈ dirs st ->
  extracted_content r = Some content ->
  PyStr.truthy content = true ->
  json_loads W content = inl msg ->
  let ts := capture_timestamp W st in
  let st' := exec (article_iteration W strategy url) st in
  new_events st st' =
    [ Printed (MsgProcessing url);
      Fetch url (article_config strategy);
      Wrote (raw_filename ts) (raw_content url r ts);
      Printed (MsgSavedRaw (raw_filename ts));
      Printed (MsgDecodeError (JSONDecodeError msg));
      Printed (MsgRawExtracted content);
      Printed (MsgWaiting (next_delay W st));
      Sleep (next_delay W st) ] /\
  fs st' !! raw_filename ts = Some (raw_content url r ts) /\
  fs st' !! processed_filename ts = fs st !! processed_filename ts /\
  for_each (url :: rest) (article_iteration W strategy) st =
    for_each rest (article_iteration W strategy) st' /\
  fst (for_each (url :: rest) (article_iteration W strategy) st) = Ok tt.
Proof.
  intros Hf Hs Hd Hc Ht Hl ts st'.
  assert (Hrun : article_iteration W strategy url st =
    (Ok tt, paused W
       (log (Printed (MsgRawExtracted content))
          (log (Printed (MsgDecodeError (JSONDecodeError msg)))
             (captured W strategy url r st))))).
  { rewrite (iteration_fetched W strategy url st r Hf Hs Hd).
    now rewrite (extraction_undecodable W url r _ _ content msg Hc Ht Hl). }
  unfold st', exec. rewrite Hrun. cbn [snd].
  split; [events_of_run|].
  split; [simpl; apply lookup_insert_eq|].
  split; [simpl; apply lookup_insert_ne, raw_is_not_processed|].
  split; [|apply loop_never_raises].
  rewrite loop_step. unfold exec. now rewrite Hrun.
Qed.

(** One iteration, started where the raw directory exists, whose
    extraction output decodes to something other than an object. *)
Lemma non_object_extraction_step (url : string)
    (rest : list string) (st : state) (r : CrawlResult)
    (content : string) (v : json) :
  arun W (fetches st) url (article_config strategy) = inr r ->
  success r = true ->
  raw_dir ∈ dirs st ->
  extracted_content r = Some content ->
  PyStr.truthy content = true ->
  json_loads W content = inr v ->
  not_object v = true ->
  let ts := capture_timestamp W st in
  let st' := exec (article_iteration W strategy url) st in
  new_events st st' =
    [ Printed (MsgProcessing url);
      Fetch url (article_config strategy);
      Wrote (raw_filename ts) (raw_content url r ts);
      Printed (MsgSavedRaw (raw_filename ts));
      Printed (MsgError url
               (AttributeError "object has no attribute 'update'"));
      Printed MsgTraceback ] /\
  fs st' !! raw_filename ts = Some (raw_content url r ts) /\
  fs st' !! processed_filename ts = fs st !! processed_filename ts /\
  for_each (url :: rest) (article_iteration W strategy) st =
    for_each rest (article_iteration W strategy) st' /\
  fst (for_each (url :: rest) (article_iteration W strategy) st) = Ok tt.
Proof.
  intros Hf Hs Hd Hc Ht Hl Hv ts st'.
  assert (Hrun : article_iteration W strategy url st =
    (Ok tt, reported url (AttributeError "object has no attribute 'update'")
              (captured W strategy url r st))).
  { rewrite (iteration_fetched W strategy url st r Hf Hs Hd).
    now rewrite (extraction_not_object W url r _ _ content v Hc Ht Hl Hv). }
  unfold st', exec. rewrite Hrun. cbn [snd].
  split; [events_of_run|].
  split; [simpl; apply lookup_insert_eq|].
  split; [simpl; apply lookup_insert_ne, raw_is_not_processed|].
  split; [|apply loop_never_raises].
  rewrite loop_step. unfold exec. now rewrite Hrun.
Qed.

End Failures.

(** ** The processed record *)

Section ProcessedRecord.

Variable W : World.
Variable strategy : LLMExtractionStrategy.

(** One iteration, started where both directories exist, whose
    extraction output decodes to the object [d]. *)
Lemma processed_record_step (url : string) (st : state)
    (r : CrawlResult) (content : string) (d : pydict) :
  arun W (fetches st) url (article_config strategy) = inr r ->
  success r = true ->
  dirs_ready st ->
  extracted_content r = Some content ->
  PyStr.truthy content = true ->
  json_loads W content = inr (JObj d) ->
  let ts := capture_timestamp W st in
  let st' := exec (article_iteration W strategy url) st in
  (forall p rec,
      In (p, rec) (writes_under processed_dir (new_events st st')) ->
      p = processed_dir // ("processed_" +:+ ts +:+ ".json") /\
      exists m d',
        metadata r = Some m /\ rec = JObj d' /\
        Dict.get "url" d' = Some (JStr url) /\
        Dict.get "crawl_date" d' = Some (JStr ts) /\
        Dict.get "title" d' = Some (Dict.get_default "title" (JStr "") m) /\
        Dict.get "date_published" d'
          = Some (Dict.get_default "date" (JStr "") m) /\
        forall k, k <> "url" -> k <> "crawl_date" -> k <> "title" ->
                  k <> "date_published" -> Dict.get k d' = Dict.get k d) /\
  (forall m,
      metadata r = Some m ->
      writes_under processed_dir (new_events st st')
        = [(processed_filename ts, JObj (processed_record url ts m d))] /\
      fs st' !! processed_filename ts
        = Some (JObj (processed_record url ts m d))).
Proof.
  intros Hf Hs [Hraw Hproc] Hc Ht Hl ts st'.
  destruct (metadata r) as [m|] eqn:Hm.
  - assert (Hrun : article_iteration W strategy url st =
      (Ok tt, paused W
         (log (Printed (MsgSavedProcessed (processed_filename ts)))
            (store (processed_filename ts)
               (JObj (processed_record url ts m d))
               (captured W strategy url r st))))).
    { rewrite (iteration_fetched W strategy url st r Hf Hs Hraw).
      now rewrite (extraction_saved W url r _ _ content d m Hc Ht Hl Hm). }
    assert (Hev : new_events st st' =
      [ Printed (MsgProcessing url);
        Fetch url (article_config strategy);
        Wrote (raw_filename ts) (raw_content url r ts);
        Printed (MsgSavedRaw (raw_filename ts));
        Wrote (processed_filename ts) (JObj (processed_record url ts m d));
        Printed (MsgSavedProcessed (processed_filename ts));
        Printed (MsgWaiting (next_delay W st));
        Sleep (next_delay W st) ]).
    { unfold st', exec. rewrite Hrun. events_of_run. }
    assert (Hw : writes_under processed_dir (new_events st st')
                 = [(processed_filename ts,
                     JObj (processed_record url ts m d))]).
    { rewrite Hev. reflexivity. }
    split.
    + intros p rec Hin. rewrite Hw in Hin.
      destruct Hin as [[= <- <-]|[]].
      split; [reflexivity|].
      exists m, (processed_record url ts m d).
      split; [reflexivity|]. split; [reflexivity|].
      apply update_required_fields.
    + intros m' [= <-]. split; [exact Hw|].
      unfold st', exec. rewrite Hrun. simpl. apply lookup_insert_eq.
  - assert (Hrun : article_iteration W strategy url st =
      (Ok tt, reported url
         (AttributeError "'NoneType' object has no attribute 'get'")
         (captured W strategy url r st))).
    { rewrite (iteration_fetched W strategy url st r Hf Hs Hraw).
      now rewrite (extraction_no_metadata W url r _ _ content d Hc Ht Hl Hm). }
    assert (Hev : new_events st st' =
      [ Printed (MsgProcessing url);
        Fetch url (article_config strategy);
        Wrote (raw_filename ts) (raw_content url r ts);
        Printed (MsgSavedRaw (raw_filename ts));
        Printed (MsgError url
          (AttributeError "'NoneType' object has no attribute 'get'"));
        Printed MsgTraceback ]).
    { unfold st', exec. rewrite Hrun. events_of_run. }
    split.
    + intros p rec Hin. rewrite Hev in Hin. destruct Hin.
    + intros m' [=].
Qed.

End ProcessedRecord.

(** ** Link discovery *)

Section Discovery.

Lemma resolve_is_article (h : string) :
  is_article h = true -> is_article (resolve h) = true.
Proof.
  unfold is_article, resolve. intros H.
  destruct (negb (PyStr.startswith "http" h)); [|exact H].
  apply orb_true_iff in H as [H|H]; apply orb_true_iff;
    [left|right]; now apply contains_prepend.
Qed.

Lemma resolve_is_absolute (h : string) :
  PyStr.startswith "http" (resolve h) = true.
Proof.
  unfold resolve.
  destruct (PyStr.startswith "http" h) eqn:E; simpl; [exact E|reflexivity].
Qed.

Lemma discover_spec (ls : list Link) (u : string) :
  In u (discover ls) <->
  exists link, In link ls /\ is_article (href link) = true /\
               u = resolve (href link).
Proof.
  induction ls as [|l ls IH]; simpl.
  - split; [intros []|intros (? & [] & _)].
  - destruct (is_article (href l)) eqn:E; simpl; rewrite IH; split.
    + intros [<-|(link & Hin & Ha & ->)]; eauto 6.
    + intros (link & [<-|Hin] & Ha & ->); eauto 6.
    + intros (link & Hin & Ha & ->); eauto 6.
    + intros (link & [<-|Hin] & Ha & ->); [congruence|eauto 6].
Qed.

(** C5.  Every discovered URL contains ['/posts/'] or ['/general/'] and
    begins with ['http']: it is the href of a matching link, with the
    base origin put in front when the href did not begin with
    ['http']. *)
Theorem discovered_urls_are_absolute_articles (r : CrawlResult)
    (u : string) :
  In u (article_urls r) ->
  (PyStr.contains "/posts/" u || PyStr.contains "/general/" u) = true /\
  PyStr.startswith "http" u = true /\
  exists link,
    In link (links_get "internal" [] (links r)) /\
    u = if PyStr.startswith "http" (href link) then href link
        else "https://vitalik.eth.limo" +:+ href link.
Proof.
  unfold article_urls. intros Hin.
  apply discover_spec in Hin as (link & Hin & Ha & ->).
  split; [apply resolve_is_article, Ha|].
  split; [apply resolve_is_absolute|].
  exists link. split; [exact Hin|].
  unfold resolve. now destruct (PyStr.startswith "http" (href link)).
Qed.

End Discovery.

(** ** The footprint of an iteration *)

Section Footprint.

Variable W : World.
Variable strategy : LLMExtractionStrategy.

Lemma unit_interval_range (bits : N) :
  (0 <= unit_interval bits)%Q /\ (unit_interval bits < 1)%Q.
Proof.
  unfold unit_interval, Qle, Qlt. cbn [Qnum Qden].
  assert (H : (bits mod 2 ^ 53 < 2 ^ 53)%N) by (apply N.mod_lt; discriminate).
  change (Z.pos (2 ^ 53)) with (Z.of_N (2 ^ 53)).
  set (k := (bits mod 2 ^ 53)%N) in *. set (top := (2 ^ 53)%N) in *.
  lia.
Qed.

(** The rounded sum stays between 2 and 3, both ends included. *)
Lemma two_plus_range (bits : N) :
  (2 <= two_plus (unit_interval bits))%Q /\
  (two_plus (unit_interval bits) <= 3)%Q.
Proof.
  unfold two_plus, nearest_double_2_4, unit_interval.
  assert (HK : (0 <= Z.of_N (bits mod 2 ^ 53) < 2 ^ 53)%Z).
  { assert (H : (bits mod 2 ^ 53 < 2 ^ 53)%N)
      by (apply N.mod_lt; discriminate).
    change (2 ^ 53)%Z with (Z.of_N (2 ^ 53)).
    set (k := (bits mod 2 ^ 53)%N) in *. set (top := (2 ^ 53)%N) in *.
    lia. }
  set (K := Z.of_N (bits mod 2 ^ 53)) in *. clearbody K.
  unfold Qplus. cbn [Qnum Qden].
  change (Z.pos (1 * 2 ^ 53)) with (2 ^ 53)%Z.
  change (Z.pos (2 ^ 53)) with (2 ^ 53)%Z.
  set (q := (((2 * 2 ^ 53 + K * 1) * 2 ^ 51) / 2 ^ 53)%Z).
  assert (Hq : (2 * 2 ^ 51 <= q /\ q + 1 <= 3 * 2 ^ 51)%Z).
  { unfold q. split.
    - apply Z.div_le_lower_bound; [reflexivity|].
      change (2 ^ 53)%Z with 9007199254740992%Z in *.
      change (2 ^ 51)%Z with 2251799813685248%Z. lia.
    - apply Z.lt_succ_r, (proj1 (Z.succ_lt_mono _ _)).
      apply Z.div_lt_upper_bound; [reflexivity|].
      change (2 ^ 53)%Z with 9007199254740992%Z in *.
      change (2 ^ 51)%Z with 2251799813685248%Z. lia. }
  clearbody q.
  destruct (match _ with Eq => _ | Lt => false | Gt => true end);
    unfold Qle; cbn [Qnum Qden];
    change (Z.pos (2 ^ 51)) with (2 ^ 51)%Z; lia.
Qed.

Lemma next_delay_range st :
  (2 <= next_delay W st)%Q /\ (next_delay W st <= 3)%Q.
Proof. apply two_plus_range. Qed.

Lemma iteration_footprint_holds url st :
  exists evs,
    iteration_footprint W url st
      (exec (article_iteration W strategy url) st) evs.
Proof.
  unfold iteration_footprint, exec.
  destruct (arun W (fetches st) url (article_config strategy))
    as [e|r] eqn:Hf.
  { rewrite (iteration_fetch_raises W strategy url st e Hf). cbn [snd].
    eexists. split; [rewrite trace_reported, trace_requested,
                       <- app_assoc; reflexivity|].
    simpl. tauto. }
  destruct (success r) eqn:Hs.
  2:{ rewrite (iteration_fetch_failed W strategy url st r Hf Hs). cbn [snd].
      eexists. split; [cbn [trace log]; rewrite trace_requested,
                         <- app_assoc; reflexivity|].
      simpl. tauto. }
  destruct (decide (raw_dir ∈ dirs st)) as [Hd|Hd].
  2:{ rewrite (iteration_no_directory W strategy url st r Hf Hs Hd).
      cbn [snd].
      eexists. split; [rewrite trace_reported; cbn [trace tick_clock];
                       rewrite trace_requested, <- app_assoc; reflexivity|].
      simpl. tauto. }
  destruct (iteration_fetched_frame W strategy url st r Hf Hs Hd)
    as (evs & closing & st2 & Hfp & -> & _ & Hclose). cbn [snd].
  destruct Hfp as (Htr & Hw & Hsl & Hfe & Hmk & Hdirs & Hrand & _).
  assert (Hdelay : next_delay W st2 = next_delay W st).
  { unfold next_delay. now rewrite Hrand. }
  destruct Hclose as [[e ->]| ->].
  - eexists. split.
    { rewrite trace_reported, Htr, trace_captured, <- !app_assoc.
      reflexivity. }
    cbn [app]. cbn [fetched made_dirs written sleeps].
    rewrite fetched_app, made_dirs_app, written_app, sleeps_app.
    rewrite Hfe, Hmk, Hsl. cbn [app fetched made_dirs written sleeps].
    rewrite app_nil_r. cbn [reported log dirs]. rewrite Hdirs.
    repeat split; auto.
    destruct Hw as [-> | ->]; auto.
  - eexists. split.
    { rewrite trace_paused, Htr, trace_captured, <- !app_assoc.
      reflexivity. }
    cbn [app]. cbn [fetched made_dirs written sleeps].
    rewrite fetched_app, made_dirs_app, written_app, sleeps_app.
    rewrite Hfe, Hmk, Hsl, Hdelay.
    cbn [app fetched made_dirs written sleeps].
    rewrite app_nil_r. cbn [paused log draw_random dirs]. rewrite Hdirs.
    repeat split; auto.
    destruct Hw as [-> | ->]; auto.
Qed.

(** The loop only appends to the trace, and makes no directory. *)
Lemma loop_extends urls st :
  exists evs,
    trace (exec (for_each urls (article_iteration W strategy)) st)
      = trace st ++ evs /\
    made_dirs evs = [].
Proof.
  revert st. induction urls as [|u urls IH]; intros st.
  - exists []. simpl. now rewrite app_nil_r.
  - unfold exec in *. rewrite loop_step.
    destruct (iteration_footprint_holds u st)
      as (evs1 & Htr1 & _ & Hmk1 & _).
    destruct (IH (exec (article_iteration W strategy u) st))
      as (evs2 & Htr2 & Hmk2).
    exists (evs1 ++ evs2). split.
    + rewrite Htr2, Htr1, app_assoc. reflexivity.
    + rewrite made_dirs_app, Hmk1, Hmk2. reflexivity.
Qed.

End Footprint.

(** ** Pacing *)

Section Pacing.

Variable W : World.
Variable strategy : LLMExtractionStrategy.

(** Where the script makes its delay and where it does not.  The delay
    of [2 + random()] seconds, between 2 and 3, is the last step of the
    iteration's body: it closes exactly the iterations that run to their
    end, the fetch having succeeded and nothing having been raised.  When
    the fetch reports failure, and when the body raises, the loop moves on
    with no delay. *)
Theorem delay_closes_completed_iterations (url : string) (st : state) :
  let st' := exec (article_iteration W strategy url) st in
  let evs := new_events st st' in
  (forall r,
      arun W (fetches st) url (article_config strategy) = inr r ->
      success r = true ->
      fst (process_article W strategy url st) = Ok tt ->
      sleeps evs = [next_delay W st] /\
      last evs = Some (Sleep (next_delay W st)) /\
      (2 <= next_delay W st)%Q /\ (next_delay W st <= 3)%Q) /\
  (forall r,
      arun W (fetches st) url (article_config strategy) = inr r ->
      success r = false ->
      sleeps evs = []) /\
  (forall e,
      fst (process_article W strategy url st) = Raise e ->
      sleeps evs = []).
Proof.
  intros st' evs. unfold evs, st', exec. clear evs st'.
  split; [|split].
  - intros r Hf Hs Hok.
    destruct (decide (raw_dir ∈ dirs st)) as [Hd|Hd].
    2:{ rewrite (process_no_directory W strategy url st r Hf Hs Hd) in Hok.
        discriminate. }
    rewrite iteration_of_process.
    rewrite (process_fetched W strategy url st r Hf Hs Hd) in Hok |- *.
    destruct (extraction_frame W url r (capture_timestamp W st)
                (captured W strategy url r st)) as [evs0 Hfp].
    unfold exec in Hfp.
    destruct (save_processed_if_available W url r (capture_timestamp W st)
                (captured W strategy url r st)) as [[[]|ex] st2];
      [|discriminate].
    cbn [snd] in Hfp |- *.
    destruct Hfp as (Htr & _ & Hsl & _ & _ & _ & Hrand & _).
    assert (Hdelay : next_delay W st2 = next_delay W st).
    { unfold next_delay. now rewrite Hrand. }
    erewrite new_events_intro.
    2:{ rewrite trace_paused, Htr, trace_captured, Hdelay, <- !app_assoc.
        reflexivity. }
    split; [|split].
    + cbn [app sleeps]. rewrite sleeps_app, Hsl. reflexivity.
    + rewrite !app_assoc.
      change [Printed (MsgWaiting (next_delay W st)); Sleep (next_delay W st)]
        with ([Printed (MsgWaiting (next_delay W st))]
                ++ [Sleep (next_delay W st)]).
      rewrite app_assoc. apply last_snoc.
    + destruct (next_delay_range W st) as [Hlo Hhi].
      split; [exact Hlo|exact Hhi].
  - intros r Hf Hs.
    rewrite (iteration_fetch_failed W strategy url st r Hf Hs).
    erewrite new_events_intro; [|cbn [snd trace log];
      rewrite trace_requested, <- app_assoc; reflexivity].
    reflexivity.
  - intros e He.
    rewrite iteration_of_process.
    destruct (arun W (fetches st) url (article_config strategy))
      as [e0|r] eqn:Hf.
    { rewrite (process_fetch_raises W strategy url st e0 Hf).
      erewrite new_events_intro; [|cbn [snd]; rewrite trace_reported,
        trace_requested, <- app_assoc; reflexivity].
      reflexivity. }
    destruct (success r) eqn:Hs.
    2:{ rewrite (process_fetch_failed W strategy url st r Hf Hs) in He.
        discriminate. }
    destruct (decide (raw_dir ∈ dirs st)) as [Hd|Hd].
    2:{ rewrite (process_no_directory W strategy url st r Hf Hs Hd).
        erewrite new_events_intro; [|cbn [snd]; rewrite trace_reported;
          cbn [trace tick_clock]; rewrite trace_requested, <- app_assoc;
          reflexivity].
        reflexivity. }
    rewrite (process_fetched W strategy url st r Hf Hs Hd) in He |- *.
    destruct (extraction_frame W url r (capture_timestamp W st)
                (captured W strategy url r st)) as [evs0 Hfp].
    unfold exec in Hfp.
    destruct (save_processed_if_available W url r (capture_timestamp W st)
                (captured W strategy url r st)) as [[[]|ex] st2];
      [discriminate|].
    cbn [snd] in Hfp |- *.
    destruct Hfp as (Htr0 & _ & Hsl & _).
    erewrite new_events_intro.
    2:{ rewrite trace_reported, Htr0, trace_captured, <- !app_assoc.
        reflexivity. }
    cbn [app sleeps]. rewrite sleeps_app, Hsl. reflexivity.
Qed.

End Pacing.

(** ** The run *)

Section Run.

Variable W : World.

Lemma crawl_without_key st :
  PyStr.truthy_opt (environ W "OPENAI_API_KEY") = false ->
  crawl_vitalik_blog W st =
    (Raise (ValueError "OpenAI API key not found. Please set the OPENAI_API_KEY environment variable."),
     st).
Proof.
  intros Hk. unfold crawl_vitalik_blog, os_getenv, bind, ret.
  now rewrite Hk.
Qed.

Lemma crawl_root_raises st e :
  PyStr.truthy_opt (environ W "OPENAI_API_KEY") = true ->
  arun W (fetches st) root_url root_config = inl e ->
  crawl_vitalik_blog W st =
    (Raise e,
     note_fetch root_url root_config
       (make_dirs processed_dir (make_dirs raw_dir st))).
Proof.
  intros Hk Hf.
  unfold crawl_vitalik_blog, os_getenv, bind, ret, mkdir, crawler_arun.
  rewrite Hk. cbn [negb fetches make_dirs]. now rewrite Hf.
Qed.

Lemma crawl_with_key st r :
  PyStr.truthy_opt (environ W "OPENAI_API_KEY") = true ->
  arun W (fetches st) root_url root_config = inr r ->
  crawl_vitalik_blog W st =
    (Ok tt,
     log (Printed MsgCompleted)
       (exec (for_each (article_urls r)
                (article_iteration W
                   (make_strategy
                      (default "" (environ W "OPENAI_API_KEY")))))
          (loop_start r st))).
Proof.
  intros Hk Hf.
  unfold crawl_vitalik_blog, os_getenv, bind, ret, mkdir, crawler_arun,
    print, exec.
  rewrite Hk. cbn [negb fetches make_dirs]. rewrite Hf.
  fold (loop_start r st).
  pose proof (loop_never_raises W
                (make_strategy (default "" (environ W "OPENAI_API_KEY")))
                (article_urls r) (loop_start r st)) as Hok.
  destruct (for_each (article_urls r) _ (loop_start r st))
    as [[[]|ex] st']; simpl in Hok; [reflexivity|discriminate].
Qed.

Lemma trace_loop_start r st :
  trace (loop_start r st) =
    trace st ++ [ Mkdir raw_dir; Mkdir processed_dir;
                  Fetch root_url root_config;
                  Printed (MsgFound (length (article_urls r))) ].
Proof. simpl. now rewrite <- !app_assoc. Qed.

Lemma dirs_ready_after_mkdir st :
  dirs_ready (make_dirs processed_dir (make_dirs raw_dir st)).
Proof.
  unfold dirs_ready, raw_dir, processed_dir, base_dir, path_div. simpl.
  set_solver.
Qed.

(** C7.  When the credential is absent from the environment (unset, or
    set to the empty string, which the script treats alike), the process
    prints its two messages and exits with status 1: nothing is fetched,
    no directory is made and no file is touched.  When it is present,
    the run starts by making the two output directories, before the
    first request and so before any write; they exist from then on. *)
Theorem credential_gate (st : state) :
  (PyStr.truthy_opt (environ W "OPENAI_API_KEY") = false ->
     fst (main W st) = 1%Z /\
     new_events st (snd (main W st))
       = [Printed MsgKeyNotSet; Printed MsgKeyHint] /\
     fetches (snd (main W st)) = fetches st /\
     dirs (snd (main W st)) = dirs st /\
     fs (snd (main W st)) = fs st) /\
  (PyStr.truthy_opt (environ W "OPENAI_API_KEY") = true ->
     exists rest,
       new_events st (snd (main W st))
         = [Mkdir raw_dir; Mkdir processed_dir;
            Fetch root_url root_config] ++ rest /\
       made_dirs rest = [] /\
       dirs_ready (snd (main W st))).
Proof.
  split; intros Hk; unfold main; rewrite Hk; cbn [negb].
  - unfold bind, print. cbn [fst snd].
    repeat split.
    apply new_events_intro. simpl. now rewrite <- app_assoc.
  - destruct (arun W (fetches st) root_url root_config) as [e|r] eqn:Hf.
    + rewrite (crawl_root_raises st e Hk Hf). cbn [snd].
      exists []. split; [|split].
      * apply new_events_intro. simpl. now rewrite <- !app_assoc.
      * reflexivity.
      * apply (dirs_ready_after_mkdir st).
    + rewrite (crawl_with_key st r Hk Hf). cbn [snd].
      set (s := make_strategy _).
      destruct (loop_extends W s (article_urls r) (loop_start r st))
        as (evs & Htr & Hmk).
      exists (Printed (MsgFound (length (article_urls r))) :: evs
                ++ [Printed MsgCompleted]).
      split; [|split].
      * apply new_events_intro. cbn [trace log].
        rewrite Htr, trace_loop_start, <- !app_assoc. reflexivity.
      * cbn [made_dirs]. rewrite made_dirs_app, Hmk. reflexivity.
      * unfold dirs_ready. cbn [dirs log]. rewrite loop_keeps_dirs.
        apply (dirs_ready_after_mkdir st).
Qed.

(** C10.  Discovery reads the links the engine files under
    ["internal"] and no others: each discovered URL comes from an
    internal link, and two results with the same internal entry give the
    same URLs whatever their external entries hold, even links whose
    path contains ['/posts/'] or ['/general/'].  When the root page has
    no internal links, nothing is discovered and the run ends normally
    after the root request, with no article requested and no file
    written. *)
Theorem discovery_reads_internal_links_only (st : state) (r : CrawlResult) :
  (forall u, In u (article_urls r) ->
      exists link, In link (links_get "internal" [] (links r)) /\
                   u = resolve (href link)) /\
  (forall r' : CrawlResult,
      links_get "internal" [] (links r') = links_get "internal" [] (links r) ->
      article_urls r' = article_urls r) /\
  (forall external : list Link,
      article_urls
        {| success := success r; error_message := error_message r;
           html := html r; markdown := markdown r; metadata := metadata r;
           extracted_content := extracted_content r;
           links := [("external", external);
                     ("internal", links_get "internal" [] (links r))] |}
      = article_urls r) /\
  (links_get "internal" [] (links r) = [] ->
     article_urls r = [] /\
     (PyStr.truthy_opt (environ W "OPENAI_API_KEY") = true ->
      arun W (fetches st) root_url root_config = inr r ->
      main W st =
        (0%Z, log (Printed MsgCompleted) (loop_start r st)) /\
      new_events st (snd (main W st))
        = [ Mkdir raw_dir; Mkdir processed_dir;
            Fetch root_url root_config;
            Printed (MsgFound 0); Printed MsgCompleted ])).
Proof.
  split; [|split; [|split]].
  - unfold article_urls. intros u Hin.
    apply discover_spec in Hin as (link & Hin & _ & ->). eauto.
  - unfold article_urls. intros r' ->. reflexivity.
  - reflexivity.
  - intros Hnone.
    assert (Hurls : article_urls r = []).
    { unfold article_urls. now rewrite Hnone. }
    split; [exact Hurls|]. intros Hk Hf.
    assert (Hmain : main W st
                    = (0%Z, log (Printed MsgCompleted) (loop_start r st))).
    { unfold main. rewrite Hk. cbn [negb].
      rewrite (crawl_with_key st r Hk Hf), Hurls. reflexivity. }
    split; [exact Hmain|].
    rewrite Hmain. apply new_events_intro. cbn [snd trace log].
    rewrite trace_loop_start, Hurls, <- app_assoc. reflexivity.
Qed.

End Run.

(** ** The pipeline, article by article *)

Section Pipeline.

Variable W : World.
Variable strategy : LLMExtractionStrategy.

(** The run makes its directories before the loop, and the loop keeps
    them. *)
Lemma in_loop_dirs_ready root st0 done :
  dirs_ready (in_loop W strategy root st0 done).
Proof.
  unfold dirs_ready, in_loop. rewrite loop_keeps_dirs. cbn [loop_start log dirs].
  apply (dirs_ready_after_mkdir st0).
Qed.

(** C1.  At any point of the loop of a run, when the fetch of an article
    reports success, the iteration writes exactly one file under the raw
    directory, named [raw_<timestamp>.json], holding the url, the markup,
    the plain-text form, the metadata and the capture timestamp; the file
    is on disk when the iteration ends.  Nothing is assumed about the
    extractor's output, so this holds whether extraction succeeds, is
    empty or fails to parse. *)
Theorem raw_snapshot_written (root : CrawlResult) (st0 : state)
    (done : list string) (url : string) (r : CrawlResult) :
  let st := in_loop W strategy root st0 done in
  arun W (fetches st) url (article_config strategy) = inr r ->
  success r = true ->
  let ts := capture_timestamp W st in
  let st' := exec (article_iteration W strategy url) st in
  let snapshot :=
    JObj [ ("url", JStr url); ("html", JStr (html r));
           ("markdown", JStr (markdown r));
           ("metadata", json_of_metadata (metadata r));
           ("crawl_date", JStr ts) ] in
  writes_under raw_dir (new_events st st')
    = [(raw_dir // ("raw_" +:+ ts +:+ ".json"), snapshot)] /\
  fs st' !! (raw_dir // ("raw_" +:+ ts +:+ ".json")) = Some snapshot.
Proof.
  intros st Hf Hs. apply raw_snapshot_step; try assumption.
  apply in_loop_dirs_ready.
Qed.

(** C2.  At any point of the loop of a run, when the extractor's output
    parses as an object [d], every record the iteration writes under the
    processed directory goes to [processed_<timestamp>.json] and has its
    [url] and [crawl_date] from the iteration and its [title] and
    [date_published] from the fetch metadata (the empty string where the
    metadata has no such entry), whatever [d] said for them; every other
    key is as in [d].  When the fetch metadata is a mapping, that record
    is indeed written and is on disk afterwards. *)
Theorem processed_record_fields (root : CrawlResult) (st0 : state)
    (done : list string) (url : string) (r : CrawlResult)
    (content : string) (d : pydict) :
  let st := in_loop W strategy root st0 done in
  arun W (fetches st) url (article_config strategy) = inr r ->
  success r = true ->
  extracted_content r = Some content ->
  PyStr.truthy content = true ->
  json_loads W content = inr (JObj d) ->
  let ts := capture_timestamp W st in
  let st' := exec (article_iteration W strategy url) st in
  (forall p rec,
      In (p, rec) (writes_under processed_dir (new_events st st')) ->
      p = processed_dir // ("processed_" +:+ ts +:+ ".json") /\
      exists m d',
        metadata r = Some m /\ rec = JObj d' /\
        Dict.get "url" d' = Some (JStr url) /\
        Dict.get "crawl_date" d' = Some (JStr ts) /\
        Dict.get "title" d' = Some (Dict.get_default "title" (JStr "") m) /\
        Dict.get "date_published" d'
          = Some (Dict.get_default "date" (JStr "") m) /\
        forall k, k <> "url" -> k <> "crawl_date" -> k <> "title" ->
                  k <> "date_published" -> Dict.get k d' = Dict.get k d) /\
  (forall m,
      metadata r = Some m ->
      writes_under processed_dir (new_events st st')
        = [(processed_filename ts, JObj (processed_record url ts m d))] /\
      fs st' !! processed_filename ts
        = Some (JObj (processed_record url ts m d))).
Proof.
  intros st Hf Hs Hc Ht Hl.
  apply (processed_record_step W strategy url st r content d);
    try assumption.
  apply in_loop_dirs_ready.
Qed.

(** C4.  At any point of the loop of a run, when the extractor's output
    is present but [json.loads] rejects it, the decode error is caught and
    logged, the only file written is the raw snapshot, which is on disk
    afterwards, the processed file is left untouched, the delay follows
    and the loop goes on with the remaining URLs. *)
Theorem undecodable_extraction_keeps_raw (root : CrawlResult) (st0 : state)
    (done : list string) (url : string) (rest : list string)
    (r : CrawlResult) (content msg : string) :
  let st := in_loop W strategy root st0 done in
  arun W (fetches st) url (article_config strategy) = inr r ->
  success r = true ->
  extracted_content r = Some content ->
  PyStr.truthy content = true ->
  json_loads W content = inl msg ->
  let ts := capture_timestamp W st in
  let st' := exec (article_iteration W strategy url) st in
  new_events st st' =
    [ Printed (MsgProcessing url);
      Fetch url (article_config strategy);
      Wrote (raw_filename ts) (raw_content url r ts);
      Printed (MsgSavedRaw (raw_filename ts));
      Printed (MsgDecodeError (JSONDecodeError msg));
      Printed (MsgRawExtracted content);
      Printed (MsgWaiting (next_delay W st));
      Sleep (next_delay W st) ] /\
  fs st' !! raw_filename ts = Some (raw_content url r ts) /\
  fs st' !! processed_filename ts = fs st !! processed_filename ts /\
  for_each (url :: rest) (article_iteration W strategy) st =
    for_each rest (article_iteration W strategy) st' /\
  fst (for_each (url :: rest) (article_iteration W strategy) st) = Ok tt.
Proof.
  intros st Hf Hs Hc Ht Hl.
  apply (undecodable_extraction_step W strategy url rest st r content msg);
    try assumption.
  apply in_loop_dirs_ready.
Qed.

(** C9.  At any point of the loop of a run, when the extractor's output
    is valid JSON but not an object, merging the fields raises an
    [AttributeError]; the decode handler does not take it, the generic
    handler reports it, the only file written is the raw snapshot, which
    stays on disk, and the loop goes on with the remaining URLs. *)
Theorem non_object_extraction_is_reported (root : CrawlResult)
    (st0 : state) (done : list string) (url : string) (rest : list string)
    (r : CrawlResult) (content : string) (v : json) :
  let st := in_loop W strategy root st0 done in
  arun W (fetches st) url (article_config strategy) = inr r ->
  success r = true ->
  extracted_content r = Some content ->
  PyStr.truthy content = true ->
  json_loads W content = inr v ->
  not_object v = true ->
  let ts := capture_timestamp W st in
  let st' := exec (article_iteration W strategy url) st in
  new_events st st' =
    [ Printed (MsgProcessing url);
      Fetch url (article_config strategy);
      Wrote (raw_filename ts) (raw_content url r ts);
      Printed (MsgSavedRaw (raw_filename ts));
      Printed (MsgError url
                 (AttributeError "object has no attribute 'update'"));
      Printed MsgTraceback ] /\
  fs st' !! raw_filename ts = Some (raw_content url r ts) /\
  fs st' !! processed_filename ts = fs st !! processed_filename ts /\
  for_each (url :: rest) (article_iteration W strategy) st =
    for_each rest (article_iteration W strategy) st' /\
  fst (for_each (url :: rest) (article_iteration W strategy) st) = Ok tt.
Proof.
  intros st Hf Hs Hc Ht Hl Hv.
  apply (non_object_extraction_step W strategy url rest st r content v);
    try assumption.
  apply in_loop_dirs_ready.
Qed.

End Pipeline.

(** ** Output files *)

Section OutputFiles.

Variable W : World.
Variable strategy : LLMExtractionStrategy.

(** C8, amended.  Each iteration writes at most one raw snapshot and
    then at most one processed record, each by a single write to a file
    named from the second-resolution capture timestamp.  A raw file is
    never a processed file, and the files of two iterations are distinct
    exactly when the two captures fall in different seconds. *)
Theorem output_files_named_by_capture_second (url1 url2 : string)
    (st1 st2 : state) :
  valid_datetime (now W (clock_reads st1)) = true ->
  valid_datetime (now W (clock_reads st2)) = true ->
  let ts1 := capture_timestamp W st1 in
  let ts2 := capture_timestamp W st2 in
  let evs1 :=
    new_events st1 (exec (article_iteration W strategy url1) st1) in
  let evs2 :=
    new_events st2 (exec (article_iteration W strategy url2) st2) in
  (written evs1 = [] \/ written evs1 = [raw_filename ts1] \/
   written evs1 = [raw_filename ts1; processed_filename ts1]) /\
  (written evs2 = [] \/ written evs2 = [raw_filename ts2] \/
   written evs2 = [raw_filename ts2; processed_filename ts2]) /\
  raw_filename ts1 <> processed_filename ts2 /\
  (raw_filename ts1 <> raw_filename ts2 <->
     ~ same_second (now W (clock_reads st1)) (now W (clock_reads st2))) /\
  (processed_filename ts1 <> processed_filename ts2 <->
     ~ same_second (now W (clock_reads st1)) (now W (clock_reads st2))).
Proof.
  intros Hv1 Hv2 ts1 ts2 evs1 evs2.
  pose proof (strftime_eq_iff _ _ Hv1 Hv2) as Hiff.
  fold (capture_timestamp W st1) in Hiff.
  fold (capture_timestamp W st2) in Hiff.
  fold ts1 ts2 in Hiff.
  split; [|split; [|split; [|split]]].
  - destruct (iteration_footprint_holds W strategy url1 st1)
      as (evs & Htr & _ & _ & Hw & _).
    unfold evs1. now rewrite (new_events_intro _ _ _ Htr).
  - destruct (iteration_footprint_holds W strategy url2 st2)
      as (evs & Htr & _ & _ & Hw & _).
    unfold evs2. now rewrite (new_events_intro _ _ _ Htr).
  - apply raw_is_not_processed.
  - rewrite <- Hiff. split; intros H E; apply H.
    + now rewrite E.
    + now apply raw_filename_inj.
  - rewrite <- Hiff. split; intros H E; apply H.
    + now rewrite E.
    + now apply processed_filename_inj.
Qed.

End OutputFiles.

(** ** Scenarios *)

Module Scenarios.

Import Sample.

Ltac computed := vm_compute; reflexivity.

Example strftime_sample :
  strftime {| year := 2024; month := 3; day := 9;
              hour := 14; minute := 5; second := 0;
              microsecond := 123456 |}
  = "20240309_140500".
Proof. reflexivity. Qed.

Example contains_sample :
  PyStr.contains "/posts/" "https://vitalik.eth.limo/posts/a" = true /\
  PyStr.contains "/posts/" "/about" = false /\
  PyStr.contains "/general/" "/general" = false.
Proof. repeat split. Qed.

Example update_sample :
  Dict.update [("title", JStr "guess"); ("summary", JStr "s")]
    (required_fields "u" "t" (JStr "T") (JStr ""))
  = [ ("title", JStr "T"); ("summary", JStr "s"); ("url", JStr "u");
      ("crawl_date", JStr "t"); ("date_published", JStr "") ].
Proof. reflexivity. Qed.

(** The end-to-end scenario: a root page linking to [/posts/a],
    [/general/b] and [/about] yields the two article URLs; with both
    fetches and both extractions succeeding, two raw and two processed
    files exist after the run, which exits with status 0. *)
Example end_to_end :
  article_urls root_page = [url_a; url_b] /\
  fst (main W_ok empty_state) = 0%Z /\
  written (trace (snd (main W_ok empty_state)))
    = [ raw_filename "20240309_140500";
        processed_filename "20240309_140500";
        raw_filename "20240309_140503";
        processed_filename "20240309_140503" ] /\
  size (fs (snd (main W_ok empty_state))) = 4.
Proof. repeat split; computed. Qed.

Lemma raw_snapshot_written_witness :
  let st := in_loop W_ok strategy root_page empty_state [url_a] in
  let st' := exec (article_iteration W_ok strategy url_b) st in
  writes_under raw_dir (new_events st st')
    = [ (raw_dir // "raw_20240309_140503.json",
         JObj [ ("url", JStr url_b);
                ("html", JStr "<html>post b</html>");
                ("markdown", JStr "post b");
                ("metadata", JObj [("title", JStr "Post B")]);
                ("crawl_date", JStr "20240309_140503") ]) ] /\
  fs st' !! (raw_dir // "raw_20240309_140503.json")
    = Some (JObj [ ("url", JStr url_b);
                   ("html", JStr "<html>post b</html>");
                   ("markdown", JStr "post b");
                   ("metadata", JObj [("title", JStr "Post B")]);
                   ("crawl_date", JStr "20240309_140503") ]).
Proof.
  apply (raw_snapshot_written W_ok strategy root_page empty_state [url_a]
           url_b page_b); computed.
Defined.

Lemma processed_record_fields_witness :
  let st := in_loop W_ok strategy root_page empty_state [] in
  let st' := exec (article_iteration W_ok strategy url_a) st in
  fs st' !! processed_filename "20240309_140500"
    = Some (JObj [ ("title", JStr "Post A");
                   ("date_published", JStr "");
                   ("summary", JStr "rollups");
                   ("url", JStr url_a);
                   ("crawl_date", JStr "20240309_140500") ]).
Proof.
  refine (proj2 (proj2
    (processed_record_fields W_ok strategy root_page empty_state [] url_a
       page_a object_text
       [ ("title", JStr "guess"); ("date_published", JNull);
         ("summary", JStr "rollups") ]
       _ _ _ _ _)
    [("title", JStr "Post A")] _)); reflexivity.
Defined.

Lemma failed_fetch_is_skipped_witness :
  let st' := exec (article_iteration W_fetch_failed strategy url_a) ready in
  written (new_events ready st') = [] /\
  fs st' = fs ready /\
  for_each [url_a; url_b] (article_iteration W_fetch_failed strategy) ready
    = for_each [url_b] (article_iteration W_fetch_failed strategy) st'.
Proof.
  destruct (failed_fetch_is_skipped W_fetch_failed strategy url_a [url_b]
              ready (failed "timeout"))
    as (Hw & _ & _ & Hfs & Hloop & _);
    [reflexivity | reflexivity |].
  split; [exact Hw|]. split; [exact Hfs | exact Hloop].
Defined.

Lemma undecodable_extraction_keeps_raw_witness :
  let st := in_loop W_bad_json strategy root_page empty_state [] in
  let st' := exec (article_iteration W_bad_json strategy url_a) st in
  written (new_events st st') = [raw_filename "20240309_140500"] /\
  fs st' !! raw_filename "20240309_140500"
    = Some (raw_content url_a page_a_refused "20240309_140500") /\
  fs st' !! processed_filename "20240309_140500" = None.
Proof.
  destruct (undecodable_extraction_keeps_raw W_bad_json strategy root_page
              empty_state [] url_a [url_b] page_a_refused
              "Sorry, I cannot help with that."
              "Expecting value: line 1 column 1 (char 0)")
    as (Hev & Hraw & Hproc & _);
    [reflexivity | reflexivity | reflexivity | reflexivity | reflexivity |].
  split; [now rewrite Hev|]. split; [exact Hraw | exact Hproc].
Defined.

Lemma non_object_extraction_is_reported_witness :
  let st := in_loop W_array strategy root_page empty_state [] in
  let st' := exec (article_iteration W_array strategy url_a) st in
  written (new_events st st') = [raw_filename "20240309_140507"] /\
  sleeps (new_events st st') = [] /\
  fs st' !! raw_filename "20240309_140507"
    = Some (raw_content url_a page_a_array "20240309_140507") /\
  fs st' !! processed_filename "20240309_140507" = None.
Proof.
  destruct (non_object_extraction_is_reported W_array strategy root_page
              empty_state [] url_a [url_b] page_a_array "[]" (JArr []))
    as (Hev & Hraw & Hproc & _);
    [reflexivity | reflexivity | reflexivity | reflexivity | reflexivity
    | reflexivity |].
  split; [now rewrite Hev|]. split; [now rewrite Hev|].
  split; [exact Hraw | exact Hproc].
Defined.

Lemma discovered_urls_are_absolute_articles_witness :
  (PyStr.contains "/posts/" url_a || PyStr.contains "/general/" url_a)
    = true /\
  PyStr.startswith "http" url_a = true.
Proof.
  destruct (discovered_urls_are_absolute_articles root_page url_a)
    as (Hsub & Habs & _); [vm_compute; left; reflexivity|].
  split; [exact Hsub | exact Habs].
Defined.

(** C6.  The script does not make the delay the claim and its own
    comment, "Respectful delay between requests", call for after every
    URL: the fetch of [url_a] reports failure, the iteration ends on the
    failure message and the request for [url_b] follows with no delay in
    between; over the whole run three requests are made and the driver
    sleeps once. *)
Lemma no_delay_after_failed_fetch :
  let st' := exec (article_iteration W_fetch_failed strategy url_a) ready in
  arun W_fetch_failed (fetches ready) url_a (article_config strategy)
    = inr (failed "timeout") /\
  new_events ready st'
    = [ Printed (MsgProcessing url_a);
        Fetch url_a (article_config strategy);
        Printed (MsgFailed url_a "timeout") ] /\
  sleeps (new_events ready st') = [] /\
  fetched (trace (snd (main W_fetch_failed empty_state)))
    = [root_url; url_a; url_b] /\
  length (sleeps (trace (snd (main W_fetch_failed empty_state)))) = 1.
Proof. repeat split; computed. Qed.

Lemma delay_closes_completed_iterations_witness :
  let st' := exec (article_iteration W_ok strategy url_a) ready in
  sleeps (new_events ready st') = [next_delay W_ok ready] /\
  last (new_events ready st') = Some (Sleep (next_delay W_ok ready)) /\
  (2 <= next_delay W_ok ready)%Q /\ (next_delay W_ok ready <= 3)%Q.
Proof.
  apply (proj1 (delay_closes_completed_iterations W_ok strategy url_a ready)
           page_a); reflexivity.
Defined.

Lemma credential_gate_witness :
  fst (main W_no_key empty_state) = 1%Z /\
  new_events empty_state (snd (main W_no_key empty_state))
    = [Printed MsgKeyNotSet; Printed MsgKeyHint] /\
  fetches (snd (main W_no_key empty_state)) = fetches empty_state /\
  dirs (snd (main W_no_key empty_state)) = dirs empty_state /\
  fs (snd (main W_no_key empty_state)) = fs empty_state.
Proof.
  apply (proj1 (credential_gate W_no_key empty_state)). reflexivity.
Defined.

(** C8, as stated, fails: the extractor answers [url_a] with a JSON
    array, the generic handler reports the error and the delay is
    skipped; [url_b] is then captured within the same second, and its
    raw snapshot replaces that of [url_a]. *)
Lemma same_second_capture_overwrites :
  let st' := snd (main W_array empty_state) in
  url_a <> url_b /\
  writes_under raw_dir (trace st')
    = [ (raw_filename "20240309_140507",
         raw_content url_a page_a_array "20240309_140507");
        (raw_filename "20240309_140507",
         raw_content url_b page_b "20240309_140507") ] /\
  fs st' !! raw_filename "20240309_140507"
    = Some (raw_content url_b page_b "20240309_140507") /\
  size (fs st') = 2.
Proof.
  split; [discriminate|]. repeat split; computed.
Qed.

Lemma output_files_named_by_capture_second_witness :
  let st1 := ready in
  let st2 := exec (article_iteration W_ok strategy url_a) ready in
  raw_filename (capture_timestamp W_ok st1)
    <> raw_filename (capture_timestamp W_ok st2) /\
  processed_filename (capture_timestamp W_ok st1)
    <> processed_filename (capture_timestamp W_ok st2).
Proof.
  destruct (output_files_named_by_capture_second W_ok strategy url_a url_b
              ready (exec (article_iteration W_ok strategy url_a) ready))
    as (_ & _ & _ & Hraw & Hproc); [reflexivity | reflexivity |].
  split; [apply Hraw | apply Hproc];
    intros (_ & _ & _ & _ & _ & Hs); vm_compute in Hs; discriminate.
Defined.

Lemma discovery_reads_internal_links_only_witness :
  article_urls external_only_page = [] /\
  main W_external_only empty_state
    = (0%Z, log (Printed MsgCompleted)
              (loop_start external_only_page empty_state)) /\
  new_events empty_state (snd (main W_external_only empty_state))
    = [ Mkdir raw_dir; Mkdir processed_dir;
        Fetch root_url root_config;
        Printed (MsgFound 0); Printed MsgCompleted ].
Proof.
  destruct (discovery_reads_internal_links_only W_external_only
              empty_state external_only_page) as (_ & _ & _ & H).
  destruct (H eq_refl) as [Hnone Hrun].
  split; [exact Hnone|]. apply Hrun; reflexivity.
Defined.

End Scenarios.

(** * Further properties of the script *)

(** ** Trace and files stay in step *)

Section Discipline.

Lemma replay_app (a b : list event) (files : gmap Path json) :
  replay (a ++ b) files = replay b (replay a files).
Proof. apply fold_left_app. Qed.

Lemma steps_refl (st : state) : steps st st [].
Proof. unfold steps. rewrite app_nil_r. split; [|split]; done. Qed.

Lemma steps_trans (st1 st2 st3 : state) (a b : list event) :
  steps st1 st2 a -> steps st2 st3 b -> steps st1 st3 (a ++ b).
Proof.
  intros (Ht1 & Hf1 & Hd1) (Ht2 & Hf2 & Hd2). split; [|split].
  - now rewrite Ht2, Ht1, app_assoc.
  - now rewrite Hf2, Hf1, replay_app.
  - set_solver.
Qed.

Lemma steps_log (e : event) (st : state) :
  (forall p c, e <> Wrote p c) -> steps st (log e st) [e].
Proof.
  intros He. split; [reflexivity|]. split; [|done].
  destruct e; try reflexivity. now destruct (He p content).
Qed.

Lemma disciplined_ret {A} (a : A) : disciplined (ret a).
Proof. intros st. exists []. apply steps_refl. Qed.

Lemma disciplined_raise {A} (e : exn) : disciplined (@raise A e).
Proof. intros st. exists []. apply steps_refl. Qed.

Lemma disciplined_bind {A B} (m : M A) (k : A -> M B) :
  disciplined m -> (forall a, disciplined (k a)) -> disciplined (bind m k).
Proof.
  intros Hm Hk st. unfold bind.
  destruct (Hm st) as [evs1 H1].
  destruct (m st) as [[a|e] st1]; cbn [snd] in *.
  - destruct (Hk a st1) as [evs2 H2].
    exists (evs1 ++ evs2). eapply steps_trans; eauto.
  - exists evs1. exact H1.
Qed.

Lemma disciplined_try {A} (body : M A) catches (handler : exn -> M A) :
  disciplined body -> (forall e, disciplined (handler e)) ->
  disciplined (try_except body catches handler).
Proof.
  intros Hb Hh st. unfold try_except.
  destruct (Hb st) as [evs1 H1].
  destruct (body st) as [[a|e] st1]; cbn [snd] in *.
  - exists evs1. exact H1.
  - destruct (catches e).
    + destruct (Hh e st1) as [evs2 H2].
      exists (evs1 ++ evs2). eapply steps_trans; eauto.
    + exists evs1. exact H1.
Qed.

Lemma disciplined_for_each {A} (xs : list A) (body : A -> M unit) :
  (forall x, disciplined (body x)) -> disciplined (for_each xs body).
Proof.
  intros Hb. induction xs as [|x xs IH]; cbn [for_each].
  - apply disciplined_ret.
  - apply disciplined_bind; auto.
Qed.

Lemma disciplined_print (m : message) : disciplined (print m).
Proof. intros st. exists [Printed m]. now apply steps_log. Qed.

Lemma disciplined_sleep (d : Q) : disciplined (asyncio_sleep d).
Proof. intros st. exists [Sleep d]. now apply steps_log. Qed.

Lemma disciplined_getenv W k : disciplined (os_getenv W k).
Proof. apply disciplined_ret. Qed.

Lemma disciplined_arun W url cfg : disciplined (crawler_arun W url cfg).
Proof.
  intros st. exists [Fetch url cfg]. unfold crawler_arun.
  destruct (arun W (fetches st) url cfg); cbn [snd];
    (split; [reflexivity|split; [reflexivity|done]]).
Qed.

Lemma disciplined_now W : disciplined (datetime_now W).
Proof.
  intros st. exists []. unfold steps. cbn. rewrite app_nil_r.
  split; [|split]; done.
Qed.

Lemma disciplined_random W : disciplined (random_random W).
Proof.
  intros st. exists []. unfold steps. cbn. rewrite app_nil_r.
  split; [|split]; done.
Qed.

Lemma disciplined_mkdir p : disciplined (mkdir p).
Proof.
  intros st. exists [Mkdir p]. split; [reflexivity|].
  split; [reflexivity|]. cbn. set_solver.
Qed.

Lemma disciplined_write p c : disciplined (write_json p c).
Proof.
  intros st. unfold write_json.
  destruct (decide (parent p ∈ dirs st)); cbn [snd].
  - exists [Wrote p c]. split; [reflexivity|]. split; [reflexivity|done].
  - exists []. apply steps_refl.
Qed.

Ltac discipline_step :=
  first
    [ apply disciplined_ret | apply disciplined_raise
    | apply disciplined_print | apply disciplined_sleep
    | apply disciplined_getenv | apply disciplined_arun
    | apply disciplined_now | apply disciplined_random
    | apply disciplined_mkdir | apply disciplined_write
    | apply disciplined_for_each; intros ?
    | apply disciplined_try; [|intros ?]
    | apply disciplined_bind; [|intros ?]
    | match goal with
      | |- disciplined (if ?b then _ else _) => destruct b
      | |- disciplined (match ?x with _ => _ end) => destruct x
      end ].

Ltac discipline := repeat discipline_step.

Lemma disciplined_iteration W strategy url :
  disciplined (article_iteration W strategy url).
Proof.
  unfold article_iteration, process_article, save_processed_if_available,
    save_processed, metadata_get.
  discipline.
Qed.

Lemma disciplined_crawl W : disciplined (crawl_vitalik_blog W).
Proof.
  unfold crawl_vitalik_blog.
  repeat first [apply disciplined_iteration | discipline_step].
Qed.

Lemma main_steps W st : exists evs, steps st (snd (main W st)) evs.
Proof.
  unfold main.
  destruct (negb (PyStr.truthy_opt (environ W "OPENAI_API_KEY"))).
  - assert (H : disciplined (print MsgKeyNotSet ;; print MsgKeyHint))
      by discipline.
    destruct (H st) as [evs Hs].
    destruct ((print MsgKeyNotSet ;; print MsgKeyHint) st) as [res st'].
    exists evs. exact Hs.
  - destruct (disciplined_crawl W st) as [evs Hs].
    destruct (crawl_vitalik_blog W st) as [[[]|e] st']; exists evs; exact Hs.
Qed.

End Discipline.

(** ** The shapes of an iteration *)

Section Shapes.

Variable W : World.
Variable strategy : LLMExtractionStrategy.

(** The four ways the extraction stage can end: nothing to do, decode
    error logged, an error raised with the state untouched, record
    saved. *)
Lemma extraction_outcomes url r ts st :
  save_processed_if_available W url r ts st = (Ok tt, st) \/
  (exists msg c,
      save_processed_if_available W url r ts st =
        (Ok tt, log (Printed (MsgRawExtracted c))
                  (log (Printed (MsgDecodeError (JSONDecodeError msg))) st))) \/
  (exists e, save_processed_if_available W url r ts st = (Raise e, st)) \/
  (exists record,
      save_processed_if_available W url r ts st =
        (Ok tt, log (Printed (MsgSavedProcessed (processed_filename ts)))
                  (store (processed_filename ts) record st))).
Proof.
  destruct (PyStr.truthy_opt (extracted_content r)) eqn:Ht.
  2:{ left. now apply extraction_absent. }
  destruct (extracted_content r) as [c|] eqn:Hc; [|discriminate].
  simpl in Ht.
  destruct (json_loads W c) as [msg|v] eqn:Hl.
  { right; left. exists msg, c. now apply extraction_undecodable. }
  destruct (not_object v) eqn:Hv.
  { right; right; left. eexists.
    eapply extraction_not_object; eassumption. }
  destruct v as [| | | | |d]; try discriminate.
  destruct (metadata r) as [m|] eqn:Hm.
  2:{ right; right; left. eexists.
      eapply extraction_no_metadata; eassumption. }
  destruct (decide (processed_dir ∈ dirs st)) as [Hd|Hd].
  - right; right; right. eexists.
    eapply extraction_saved; eassumption.
  - right; right; left. eexists.
    eapply extraction_no_directory; eassumption.
Qed.

Lemma iteration_trace_holds (url : string) (st : state) :
  iteration_trace W strategy url st
    (new_events st (exec (article_iteration W strategy url) st)).
Proof.
  unfold exec.
  destruct (arun W (fetches st) url (article_config strategy))
    as [e|r] eqn:Hf.
  { rewrite (iteration_fetch_raises W strategy url st e Hf).
    erewrite new_events_intro; [apply it_cut_short|].
    cbn [snd]. now rewrite trace_reported, trace_requested, <- app_assoc. }
  destruct (success r) eqn:Hs.
  2:{ rewrite (iteration_fetch_failed W strategy url st r Hf Hs).
      erewrite new_events_intro; [apply it_fetch_failed|].
      cbn [snd trace log]. now rewrite trace_requested, <- app_assoc. }
  destruct (decide (raw_dir ∈ dirs st)) as [Hd|Hd].
  2:{ rewrite (iteration_no_directory W strategy url st r Hf Hs Hd).
      erewrite new_events_intro; [apply it_cut_short|].
      cbn [snd]. rewrite trace_reported. cbn [trace tick_clock].
      now rewrite trace_requested, <- app_assoc. }
  rewrite (iteration_fetched W strategy url st r Hf Hs Hd).
  destruct (extraction_outcomes url r (capture_timestamp W st)
              (captured W strategy url r st))
    as [-> | [(msg & c & ->) | [(e & ->) | (record & ->)]]].
  - erewrite new_events_intro; [apply it_raw_only|].
    cbn [snd]. rewrite trace_paused, trace_captured, <- app_assoc.
    reflexivity.
  - erewrite new_events_intro; [apply it_undecodable|].
    cbn [snd]. rewrite trace_paused. cbn [trace log].
    rewrite trace_captured, <- !app_assoc. reflexivity.
  - erewrite new_events_intro; [apply it_merge_raised|].
    cbn [snd]. rewrite trace_reported, trace_captured, <- app_assoc.
    reflexivity.
  - erewrite new_events_intro; [apply it_processed|].
    cbn [snd]. rewrite trace_paused. cbn [trace log store].
    rewrite trace_captured, <- !app_assoc. reflexivity.
Qed.

(** The events of the loop are those of its turns, one after another. *)
Lemma loop_events_nil st : loop_events W strategy [] st = [].
Proof.
  unfold loop_events, new_events, exec. cbn. apply drop_all.
Qed.

Lemma loop_events_cons url urls st :
  loop_events W strategy (url :: urls) st =
    new_events st (exec (article_iteration W strategy url) st) ++
    loop_events W strategy urls (exec (article_iteration W strategy url) st).
Proof.
  unfold loop_events, exec. rewrite loop_step. unfold exec.
  destruct (iteration_footprint_holds W strategy url st)
    as (evs1 & Htr1 & _).
  destruct (loop_extends W strategy urls
              (exec (article_iteration W strategy url) st))
    as (evs2 & Htr2 & _).
  unfold exec in *.
  rewrite (new_events_intro _ _ _ Htr1), (new_events_intro _ _ _ Htr2).
  apply new_events_intro. now rewrite Htr2, Htr1, app_assoc.
Qed.

(** Induction over the turns of the loop. *)
Lemma loop_events_ind (P : list string -> list event -> Prop) :
  P [] [] ->
  (forall url urls st evs1 evs2,
      iteration_trace W strategy url st evs1 ->
      P urls evs2 -> P (url :: urls) (evs1 ++ evs2)) ->
  forall urls st, P urls (loop_events W strategy urls st).
Proof.
  intros Hnil Hcons urls. induction urls as [|u urls IH]; intros st.
  - now rewrite loop_events_nil.
  - rewrite loop_events_cons. eapply Hcons; [|apply IH].
    apply iteration_trace_holds.
Qed.

(** X1.  Every turn of the loop, in any world and from any state, ends
    normally and leaves one of the six traces of [iteration_trace]:
    whatever goes wrong with one article stays within its turn. *)
Theorem iteration_follows_a_trace (url : string) (st : state) :
  fst (article_iteration W strategy url st) = Ok tt /\
  iteration_trace W strategy url st
    (new_events st (exec (article_iteration W strategy url) st)).
Proof.
  split; [apply iteration_never_raises | apply iteration_trace_holds].
Qed.

End Shapes.

(** ** The loop and the run, turn by turn *)

Section Turns.

Variable W : World.

Lemma fetch_configs_app (a b : list event) :
  fetch_configs (a ++ b) = fetch_configs a ++ fetch_configs b.
Proof. induction a as [|[] a IH]; simpl; auto. now rewrite IH. Qed.

Lemma parent_raw ts : parent (raw_filename ts) = raw_dir.
Proof. reflexivity. Qed.

Lemma parent_processed ts : parent (processed_filename ts) = processed_dir.
Proof. reflexivity. Qed.

Lemma writes_under_cons_here dir p c evs :
  parent p = dir ->
  writes_under dir (Wrote p c :: evs) = (p, c) :: writes_under dir evs.
Proof. intros H. cbn [writes_under]. now rewrite decide_True. Qed.

Lemma writes_under_cons_there dir p c evs :
  parent p <> dir ->
  writes_under dir (Wrote p c :: evs) = writes_under dir evs.
Proof. intros H. cbn [writes_under]. now rewrite decide_False. Qed.

(** What one turn adds to each tally. *)
Lemma iteration_trace_tally strategy url st evs :
  iteration_trace W strategy url st evs ->
  fetched evs = [url] /\
  fetch_configs evs = [article_config strategy] /\
  made_dirs evs = [] /\
  Forall in_window (sleeps evs) /\
  Forall output_path (written evs) /\
  (forall ts, In (processed_filename ts) (written evs) ->
              In (raw_filename ts) (written evs)) /\
  (length (writes_under processed_dir evs) <= length (sleeps evs)
   /\ length (sleeps evs) <= length (writes_under raw_dir evs)
   /\ length (writes_under raw_dir evs) <= 1)%nat.
Proof.
  assert (Hraw : forall t, output_path (raw_filename t))
    by (intros t; exists t; now left).
  assert (Hproc : forall t, output_path (processed_filename t))
    by (intros t; exists t; now right).
  assert (Hwin : in_window (next_delay W st))
    by apply next_delay_range.
  assert (Hne : forall t, parent (raw_filename t) <> processed_dir)
    by discriminate.
  assert (Hne' : forall t, parent (processed_filename t) <> raw_dir)
    by discriminate.
  intros H; destruct H; cbn [fetched fetch_configs made_dirs sleeps written];
    rewrite ?writes_under_cons_here by reflexivity;
    cbn [writes_under];
    rewrite ?(writes_under_cons_there processed_dir (raw_filename _)) by auto;
    rewrite ?(writes_under_cons_here raw_dir (raw_filename _)) by reflexivity;
    cbn [writes_under];
    rewrite ?(writes_under_cons_there raw_dir (processed_filename _)) by auto;
    rewrite ?(writes_under_cons_here processed_dir (processed_filename _))
      by reflexivity;
    cbn [writes_under length];
    (repeat split; auto; try lia);
    intros ts Hin;
    repeat (destruct Hin as [E|Hin];
            [first [ now destruct (raw_is_not_processed _ _ E)
                   | apply processed_filename_inj in E; subst; now left ]|]);
    destruct Hin.
Qed.

Lemma loop_tally strategy urls st :
  let evs := loop_events W strategy urls st in
  fetched evs = urls /\
  fetch_configs evs = map (fun _ => article_config strategy) urls /\
  made_dirs evs = [] /\
  Forall in_window (sleeps evs) /\
  Forall output_path (written evs) /\
  (forall ts, In (processed_filename ts) (written evs) ->
              In (raw_filename ts) (written evs)) /\
  (length (writes_under processed_dir evs) <= length (sleeps evs)
   /\ length (sleeps evs) <= length (writes_under raw_dir evs)
   /\ length (writes_under raw_dir evs) <= length urls)%nat.
Proof.
  cbv zeta. revert urls st.
  apply (loop_events_ind W strategy
    (fun urls evs =>
       fetched evs = urls /\
       fetch_configs evs = map (fun _ => article_config strategy) urls /\
       made_dirs evs = [] /\
       Forall in_window (sleeps evs) /\
       Forall output_path (written evs) /\
       (forall ts, In (processed_filename ts) (written evs) ->
                   In (raw_filename ts) (written evs)) /\
       (length (writes_under processed_dir evs) <= length (sleeps evs)
        /\ length (sleeps evs) <= length (writes_under raw_dir evs)
        /\ length (writes_under raw_dir evs) <= length urls)%nat)).
  - cbn. repeat split; auto.
  - intros url urls st evs1 evs2 Hit
      (Hf2 & Hc2 & Hm2 & Hs2 & Ho2 & Hp2 & Hn2).
    destruct (iteration_trace_tally strategy url st evs1 Hit)
      as (Hf1 & Hc1 & Hm1 & Hs1 & Ho1 & Hp1 & Hn1).
    rewrite fetched_app, fetch_configs_app, made_dirs_app, sleeps_app,
      written_app, !writes_under_app, !length_app.
    rewrite Hf1, Hf2, Hc1, Hc2, Hm1, Hm2.
    repeat split; auto.
    + now apply Forall_app.
    + now apply Forall_app.
    + intros ts Hin. apply in_app_iff in Hin. apply in_app_iff.
      destruct Hin; [left|right]; auto.
    + lia.
    + lia.
    + cbn [length]. lia.
Qed.

End Turns.

(** ** Whole runs *)

Section WholeRuns.

Variable W : World.

(** The three courses a run can take. *)
Lemma run_without_key st :
  PyStr.truthy_opt (environ W "OPENAI_API_KEY") = false ->
  main W st = (1%Z, log (Printed MsgKeyHint) (log (Printed MsgKeyNotSet) st)) /\
  run_events W st = [Printed MsgKeyNotSet; Printed MsgKeyHint].
Proof.
  intros Hk.
  assert (Hmain : main W st
            = (1%Z, log (Printed MsgKeyHint) (log (Printed MsgKeyNotSet) st))).
  { unfold main. now rewrite Hk. }
  split; [exact Hmain|]. unfold run_events. rewrite Hmain.
  apply new_events_intro. simpl. now rewrite <- app_assoc.
Qed.

Lemma run_root_raises st e :
  PyStr.truthy_opt (environ W "OPENAI_API_KEY") = true ->
  arun W (fetches st) root_url root_config = inl e ->
  main W st =
    (1%Z, note_fetch root_url root_config
            (make_dirs processed_dir (make_dirs raw_dir st))) /\
  run_events W st =
    [Mkdir raw_dir; Mkdir processed_dir; Fetch root_url root_config].
Proof.
  intros Hk Hf.
  assert (Hmain : main W st =
    (1%Z, note_fetch root_url root_config
            (make_dirs processed_dir (make_dirs raw_dir st)))).
  { unfold main. rewrite Hk. cbn [negb].
    now rewrite (crawl_root_raises W st e Hk Hf). }
  split; [exact Hmain|]. unfold run_events. rewrite Hmain.
  apply new_events_intro. simpl. now rewrite <- !app_assoc.
Qed.

Lemma run_with_key st r :
  PyStr.truthy_opt (environ W "OPENAI_API_KEY") = true ->
  arun W (fetches st) root_url root_config = inr r ->
  fst (main W st) = 0%Z /\
  run_events W st =
    [ Mkdir raw_dir; Mkdir processed_dir; Fetch root_url root_config;
      Printed (MsgFound (length (article_urls r))) ]
    ++ loop_events W (run_strategy W) (article_urls r) (loop_start r st)
    ++ [Printed MsgCompleted].
Proof.
  intros Hk Hf. unfold run_events, main. rewrite Hk. cbn [negb].
  rewrite (crawl_with_key W st r Hk Hf). cbn [fst snd].
  split; [reflexivity|].
  fold (run_strategy W).
  destruct (loop_extends W (run_strategy W) (article_urls r)
              (loop_start r st)) as (evs & Htr & _).
  unfold loop_events. rewrite (new_events_intro _ _ _ Htr).
  apply new_events_intro. cbn [trace log].
  now rewrite Htr, trace_loop_start, <- !app_assoc.
Qed.

Lemma run_cases st :
  (PyStr.truthy_opt (environ W "OPENAI_API_KEY") = false /\
   run_events W st = [Printed MsgKeyNotSet; Printed MsgKeyHint]) \/
  (exists e, arun W (fetches st) root_url root_config = inl e /\
     run_events W st =
       [Mkdir raw_dir; Mkdir processed_dir; Fetch root_url root_config]) \/
  (exists r, arun W (fetches st) root_url root_config = inr r /\
     run_events W st =
       [ Mkdir raw_dir; Mkdir processed_dir; Fetch root_url root_config;
         Printed (MsgFound (length (article_urls r))) ]
       ++ loop_events W (run_strategy W) (article_urls r) (loop_start r st)
       ++ [Printed MsgCompleted]).
Proof.
  destruct (PyStr.truthy_opt (environ W "OPENAI_API_KEY")) eqn:Hk.
  2:{ left. split; [reflexivity|]. now apply run_without_key. }
  destruct (arun W (fetches st) root_url root_config) as [e|r] eqn:Hf.
  - right; left. exists e. split; [reflexivity|].
    now apply (run_root_raises st e).
  - right; right. exists r. split; [reflexivity|].
    now apply (run_with_key st r).
Qed.

(** The writes and the delays of a run are those of its loop. *)
Lemma run_tally st :
  let evs := run_events W st in
  Forall in_window (sleeps evs) /\
  Forall output_path (written evs) /\
  (forall ts, In (processed_filename ts) (written evs) ->
              In (raw_filename ts) (written evs)) /\
  (length (writes_under processed_dir evs) <= length (sleeps evs)
   /\ length (sleeps evs) <= length (writes_under raw_dir evs)
   /\ length (writes_under raw_dir evs) <= length (fetched evs))%nat.
Proof.
  cbv zeta.
  destruct (run_cases st) as [[_ ->] | [(e & _ & ->) | (r & _ & ->)]].
  - cbn. repeat split; auto.
  - cbn. repeat split; auto.
  - destruct (loop_tally W (run_strategy W) (article_urls r)
                (loop_start r st))
      as (Hf & _ & _ & Hs & Ho & Hp & Hn).
    cbv zeta in *.
    set (loop := loop_events W (run_strategy W) (article_urls r)
                   (loop_start r st)) in *.
    cbn [app sleeps written fetched writes_under].
    rewrite sleeps_app, written_app, fetched_app, !writes_under_app, Hf.
    cbn [sleeps written fetched writes_under].
    rewrite ?app_nil_r, ?length_app. cbn [length].
    repeat split; auto; lia.
Qed.

End WholeRuns.

(** ** What a run does and never does *)

Section RunProperties.

Variable W : World.

(** X3.  When the credential is set and the root request returns, the
    run requests the root page and then every discovered URL exactly once,
    in the order of discovery: a failed article is not retried and none is
    left out. *)
Theorem run_requests_each_url_once (st : state) (r : CrawlResult) :
  PyStr.truthy_opt (environ W "OPENAI_API_KEY") = true ->
  arun W (fetches st) root_url root_config = inr r ->
  fetched (run_events W st) = root_url :: article_urls r.
Proof.
  intros Hk Hf. destruct (run_with_key W st r Hk Hf) as [_ ->].
  destruct (loop_tally W (run_strategy W) (article_urls r) (loop_start r st))
    as (Hfetched & _).
  cbn [app fetched]. rewrite fetched_app, Hfetched. cbn [fetched].
  now rewrite app_nil_r.
Qed.

(** X4.  The root page is requested with the cache bypassed and no
    extraction; every article is requested with the default cache mode,
    frames and images awaited, and the GPT-4 extraction strategy carrying
    the credential read from the environment. *)
Theorem article_requests_use_the_strategy (st : state) (r : CrawlResult)
    (key : string) :
  environ W "OPENAI_API_KEY" = Some key ->
  PyStr.truthy key = true ->
  arun W (fetches st) root_url root_config = inr r ->
  fetch_configs (run_events W st) =
    {| cache_mode := Some BYPASS; extraction_strategy := None;
       process_iframes := false; wait_for_images := false |}
    :: map (fun _ =>
              {| cache_mode := None;
                 extraction_strategy :=
                   Some {| provider := "openai/gpt-4"; api_token := key;
                           chunk_token_threshold := 3000 |};
                 process_iframes := true; wait_for_images := true |})
           (article_urls r).
Proof.
  intros He Ht Hf.
  assert (Hk : PyStr.truthy_opt (environ W "OPENAI_API_KEY") = true)
    by now rewrite He.
  destruct (run_with_key W st r Hk Hf) as [_ ->].
  destruct (loop_tally W (run_strategy W) (article_urls r) (loop_start r st))
    as (_ & Hcfg & _).
  cbn [app fetch_configs]. rewrite fetch_configs_app, Hcfg.
  cbn [fetch_configs]. rewrite app_nil_r.
  unfold run_strategy. rewrite He. reflexivity.
Qed.

(** X5.  The process exits with status 0 exactly when the credential is
    set and the root request returns a result; otherwise with status 1.
    Neither the success flag of the root result nor anything that happens
    to an article changes the status. *)
Theorem exit_status_characterised (st : state) :
  (fst (main W st) = 0%Z <->
     PyStr.truthy_opt (environ W "OPENAI_API_KEY") = true /\
     exists r, arun W (fetches st) root_url root_config = inr r) /\
  (fst (main W st) = 0%Z \/ fst (main W st) = 1%Z).
Proof.
  destruct (PyStr.truthy_opt (environ W "OPENAI_API_KEY")) eqn:Hk.
  2:{ destruct (run_without_key W st Hk) as [-> _]. cbn [fst].
      split; [|now right]. split; [discriminate|]. now intros [? _]. }
  destruct (arun W (fetches st) root_url root_config) as [e|r] eqn:Hf.
  - destruct (run_root_raises W st e Hk Hf) as [-> _]. cbn [fst].
    split; [|now right]. split; [discriminate|].
    intros [_ [r' Hr']]. discriminate.
  - destruct (run_with_key W st r Hk Hf) as [-> _].
    split; [|now left]. split; eauto.
Qed.

(** X6.  When the root request raises, nothing guards it: the process
    ends with status 1 right after the request, having made the two
    directories, with no article requested and no file written. *)
Theorem root_request_failure_aborts (st : state) (e : exn) :
  PyStr.truthy_opt (environ W "OPENAI_API_KEY") = true ->
  arun W (fetches st) root_url root_config = inl e ->
  fst (main W st) = 1%Z /\
  run_events W st =
    [Mkdir raw_dir; Mkdir processed_dir; Fetch root_url root_config] /\
  fs (snd (main W st)) = fs st /\
  dirs_ready (snd (main W st)).
Proof.
  intros Hk Hf. destruct (run_root_raises W st e Hk Hf) as [Hmain Hev].
  rewrite Hev, Hmain. cbn [fst snd]. repeat split.
  - apply (dirs_ready_after_mkdir st).
  - apply (dirs_ready_after_mkdir st).
Qed.

(** X10.  Every delay a run makes, in any world, is at least 2 and at
    most 3 seconds.  The sum [2 + random()] is rounded to a double, and
    for the largest value of [random()] it is exactly 3. *)
Theorem run_delays_in_window (st : state) :
  Forall (fun d => (2 <= d)%Q /\ (d <= 3)%Q) (sleeps (run_events W st)) /\
  (forall st' : state,
      (random_bits W (random_draws st') mod 2 ^ 53 = 2 ^ 53 - 1)%N ->
      (next_delay W st' == 3)%Q).
Proof.
  split; [apply (run_tally W st)|].
  intros st' Hmax. unfold next_delay, two_plus, unit_interval.
  rewrite Hmax. reflexivity.
Qed.

(** X11.  Over a run, a processed record is written only before a delay
    and a delay is made only after a raw snapshot, so there are at most
    as many processed records as delays, at most as many delays as raw
    snapshots, and at most one raw snapshot per discovered URL. *)
Theorem run_write_tally (st : state) (r : CrawlResult) :
  PyStr.truthy_opt (environ W "OPENAI_API_KEY") = true ->
  arun W (fetches st) root_url root_config = inr r ->
  let evs := run_events W st in
  (length (writes_under processed_dir evs) <= length (sleeps evs))%nat /\
  (length (sleeps evs) <= length (writes_under raw_dir evs))%nat /\
  (length (writes_under raw_dir evs) <= length (article_urls r))%nat.
Proof.
  intros Hk Hf evs. unfold evs.
  destruct (run_with_key W st r Hk Hf) as [_ ->].
  destruct (loop_tally W (run_strategy W) (article_urls r) (loop_start r st))
    as (_ & _ & _ & _ & _ & _ & Hn).
  cbv zeta in Hn.
  set (loop := loop_events W (run_strategy W) (article_urls r)
                 (loop_start r st)) in *.
  cbn [app sleeps writes_under].
  rewrite sleeps_app, !writes_under_app.
  cbn [sleeps writes_under]. rewrite !app_nil_r. exact Hn.
Qed.

(** X12.  A run never writes a processed record without having written,
    earlier in the same run, the raw snapshot of the same timestamp. *)
Theorem processed_files_have_raw_twins (st : state) (ts : string) :
  In (processed_filename ts) (written (run_events W st)) ->
  In (raw_filename ts) (written (run_events W st)).
Proof. apply (run_tally W st). Qed.

Lemma replay_lookup_other (evs : list event) (files : gmap Path json)
    (p : Path) :
  ~ In p (written evs) -> replay evs files !! p = files !! p.
Proof.
  revert files. induction evs as [|e evs IH]; intros files Hp;
    [reflexivity|].
  unfold replay in *. cbn [fold_left].
  destruct e; cbn [written apply_event] in *; try now apply IH.
  assert (Hne : p0 <> p) by (intros ->; apply Hp; now left).
  assert (Hrest : ~ In p (written evs)) by (intros Hin; apply Hp; now right).
  rewrite IH by exact Hrest. now apply lookup_insert_ne.
Qed.

Lemma replay_keeps (evs : list event) (files : gmap Path json) (p : Path) :
  is_Some (files !! p) -> is_Some (replay evs files !! p).
Proof.
  revert files. induction evs as [|e evs IH]; intros files Hp; [exact Hp|].
  unfold replay in *. cbn [fold_left]. apply IH.
  destruct e; cbn [apply_event]; try exact Hp.
  destruct (decide (p0 = p)) as [->|Hne].
  - rewrite lookup_insert_eq. eauto.
  - now rewrite lookup_insert_ne.
Qed.

(** X13.  A run never deletes a file, and never touches a file outside
    its two output directories: such a file has the same content after
    the run as before. *)
Theorem run_keeps_other_files (st : state) (p : Path) :
  (is_Some (fs st !! p) -> is_Some (fs (snd (main W st)) !! p)) /\
  (parent p <> raw_dir -> parent p <> processed_dir ->
   fs (snd (main W st)) !! p = fs st !! p).
Proof.
  destruct (main_steps W st) as (evs & Ht & Hf & _).
  assert (Hev : run_events W st = evs)
    by (unfold run_events; now apply new_events_intro).
  rewrite Hf. split.
  - apply replay_keeps.
  - intros Hraw Hproc. apply replay_lookup_other. intros Hin.
    destruct (run_tally W st) as (_ & Ho & _). cbv zeta in Ho.
    rewrite Hev in Ho. rewrite List.Forall_forall in Ho.
    destruct (Ho p Hin) as [ts [-> | ->]]; [now apply Hraw|now apply Hproc].
Qed.

End RunProperties.

(** ** More ways for an article to go *)

Section ArticleCases.

Variable W : World.
Variable strategy : LLMExtractionStrategy.

(** X7.  When the request for an article raises, the generic handler
    reports the error: nothing is written, no delay is made, the file
    system is as before, and the loop goes on with the remaining URLs. *)
Theorem raised_fetch_is_reported (url : string) (rest : list string)
    (st : state) (e : exn) :
  arun W (fetches st) url (article_config strategy) = inl e ->
  let st' := exec (article_iteration W strategy url) st in
  new_events st st' =
    [ Printed (MsgProcessing url); Fetch url (article_config strategy);
      Printed (MsgError url e); Printed MsgTraceback ] /\
  fs st' = fs st /\
  for_each (url :: rest) (article_iteration W strategy) st =
    for_each rest (article_iteration W strategy) st'.
Proof.
  intros Hf st'. unfold st', exec.
  split; [|split].
  - rewrite (iteration_fetch_raises W strategy url st e Hf). events_of_run.
  - now rewrite (iteration_fetch_raises W strategy url st e Hf).
  - apply loop_step.
Qed.

(** X8.  At any point of the loop of a run, when the fetch succeeds and
    the extractor returned nothing ([None] or the empty string), the turn
    writes the raw snapshot, says nothing about extraction, leaves the
    processed file alone and ends with the delay. *)
Theorem absent_extraction_keeps_raw (root : CrawlResult) (st0 : state)
    (done : list string) (url : string) (r : CrawlResult) :
  let st := in_loop W strategy root st0 done in
  arun W (fetches st) url (article_config strategy) = inr r ->
  success r = true ->
  PyStr.truthy_opt (extracted_content r) = false ->
  let ts := capture_timestamp W st in
  let st' := exec (article_iteration W strategy url) st in
  new_events st st' =
    [ Printed (MsgProcessing url); Fetch url (article_config strategy);
      Wrote (raw_filename ts) (raw_content url r ts);
      Printed (MsgSavedRaw (raw_filename ts));
      Printed (MsgWaiting (next_delay W st)); Sleep (next_delay W st) ] /\
  fs st' !! raw_filename ts = Some (raw_content url r ts) /\
  fs st' !! processed_filename ts = fs st !! processed_filename ts.
Proof.
  intros st Hf Hs He ts st'.
  assert (Hd : raw_dir ∈ dirs st) by apply in_loop_dirs_ready.
  assert (Hrun : article_iteration W strategy url st =
                 (Ok tt, paused W (captured W strategy url r st))).
  { rewrite (iteration_fetched W strategy url st r Hf Hs Hd).
    now rewrite (extraction_absent W url r _ _ He). }
  unfold st', exec. rewrite Hrun. cbn [snd].
  split; [events_of_run|].
  split; [simpl; apply lookup_insert_eq|].
  simpl. apply lookup_insert_ne, raw_is_not_processed.
Qed.

(** X9.  At any point of the loop of a run, when the extractor's output
    is an object but the fetch result carries no metadata mapping, the
    raw snapshot is written with [null] for its metadata, reading the
    title raises, the generic handler reports it, no processed record is
    written and no delay follows. *)
Theorem missing_metadata_blocks_processed_record (root : CrawlResult)
    (st0 : state) (done : list string) (url : string) (r : CrawlResult)
    (content : string) (d : pydict) :
  let st := in_loop W strategy root st0 done in
  arun W (fetches st) url (article_config strategy) = inr r ->
  success r = true ->
  extracted_content r = Some content ->
  PyStr.truthy content = true ->
  json_loads W content = inr (JObj d) ->
  metadata r = None ->
  let ts := capture_timestamp W st in
  let st' := exec (article_iteration W strategy url) st in
  new_events st st' =
    [ Printed (MsgProcessing url); Fetch url (article_config strategy);
      Wrote (raw_filename ts)
        (JObj [ ("url", JStr url); ("html", JStr (html r));
                ("markdown", JStr (markdown r)); ("metadata", JNull);
                ("crawl_date", JStr ts) ]);
      Printed (MsgSavedRaw (raw_filename ts));
      Printed (MsgError url
        (AttributeError "'NoneType' object has no attribute 'get'"));
      Printed MsgTraceback ] /\
  fs st' !! processed_filename ts = fs st !! processed_filename ts.
Proof.
  intros st Hf Hs Hc Ht Hl Hm ts st'.
  assert (Hd : raw_dir ∈ dirs st) by apply in_loop_dirs_ready.
  assert (Hrun : article_iteration W strategy url st =
    (Ok tt, reported url
       (AttributeError "'NoneType' object has no attribute 'get'")
       (captured W strategy url r st))).
  { rewrite (iteration_fetched W strategy url st r Hf Hs Hd).
    now rewrite (extraction_no_metadata W url r _ _ content d Hc Ht Hl Hm). }
  unfold st', exec. rewrite Hrun. cbn [snd].
  split.
  - replace (JObj [ ("url", JStr url); ("html", JStr (html r));
                    ("markdown", JStr (markdown r)); ("metadata", JNull);
                    ("crawl_date", JStr ts) ])
      with (raw_content url r ts)
      by (unfold raw_content; now rewrite Hm).
    events_of_run.
  - simpl. apply lookup_insert_ne, raw_is_not_processed.
Qed.

End ArticleCases.

(** ** Links and hrefs *)

Section Hrefs.

Lemma prefix_iff (p s : string) :
  String.prefix p s = true <-> exists b, s = p +:+ b.
Proof.
  revert s. induction p as [|c p IH]; intros s.
  - split; [intros _; exists s; reflexivity|intros _; now destruct s].
  - destruct s as [|c' s]; cbn [String.prefix].
    + split; [discriminate|intros [b Hb]; discriminate].
    + destruct (ascii_dec c c') as [->|Hne].
      * rewrite IH. split; intros [b Hb]; exists b.
        -- cbn. now rewrite Hb.
        -- cbn in Hb. now injection Hb.
      * split; [discriminate|]. intros [b Hb]. cbn in Hb.
        injection Hb as Hc _. congruence.
Qed.

Lemma contains_iff (sub s : string) :
  PyStr.contains sub s = true <-> exists a b, s = a +:+ sub +:+ b.
Proof.
  induction s as [|c s IH]; cbn [PyStr.contains].
  - rewrite orb_false_r, prefix_iff. split.
    + intros [b Hb]. exists "", b. exact Hb.
    + intros (a & b & H). destruct a; [now exists b|discriminate].
  - rewrite orb_true_iff, prefix_iff, IH. split.
    + intros [[b Hb]|(a & b & Hab)].
      * exists "", b. exact Hb.
      * exists (String c a), b. cbn. now rewrite Hab.
    + intros (a & b & H). destruct a as [|c' a].
      * left. now exists b.
      * right. cbn in H. injection H as _ H. now exists a, b.
Qed.

(** X17.  A link is taken for an article exactly when its href holds
    ['/posts/'] or ['/general/'] somewhere: in the path, but just as well
    in the host, the query or the fragment. *)
Theorem is_article_iff_substring (h : string) :
  is_article h = true <->
  exists a b, h = a +:+ "/posts/" +:+ b \/ h = a +:+ "/general/" +:+ b.
Proof.
  unfold is_article. rewrite orb_true_iff, !contains_iff. split.
  - intros [(a & b & H)|(a & b & H)]; exists a, b; auto.
  - intros (a & b & [H|H]); [left|right]; now exists a, b.
Qed.

(** X15.  Resolution leaves an href that begins with ['http'] as it is,
    so resolving twice is resolving once. *)
Theorem resolve_idempotent (h : string) :
  (PyStr.startswith "http" h = true -> resolve h = h) /\
  resolve (resolve h) = resolve h.
Proof.
  split.
  - intros H. unfold resolve. now rewrite H.
  - pose proof (resolve_is_absolute h) as H.
    unfold resolve at 1. now rewrite H.
Qed.

(** X16.  An href that does not begin with ['http'] gets the origin put
    in front with nothing in between; unless the href begins with a
    slash, the result is therefore not a URL under the site's root. *)
Theorem resolve_glues_relative_hrefs (h : string) :
  PyStr.startswith "http" h = false ->
  resolve h = "https://vitalik.eth.limo" +:+ h /\
  (PyStr.startswith "/" h = false ->
   PyStr.startswith "https://vitalik.eth.limo/" (resolve h) = false).
Proof.
  intros H. unfold resolve. rewrite H. cbn [negb].
  split; [reflexivity|]. intros Hs. exact Hs.
Qed.

Lemma discover_app (ls1 ls2 : list Link) :
  discover (ls1 ++ ls2) = discover ls1 ++ discover ls2.
Proof.
  induction ls1 as [|l ls1 IH]; cbn [discover app]; [reflexivity|].
  destruct (is_article (href l)); cbn [app]; now rewrite IH.
Qed.

(** X14.  Discovery keeps the order of the links and does not remove
    duplicates: the URLs of two lists of links are those of the first
    followed by those of the second, and an article href listed [n] times
    gives its URL at least [n] times. *)
Theorem discovery_keeps_order_and_duplicates (ls1 ls2 : list Link)
    (h : string) :
  discover (ls1 ++ ls2) = discover ls1 ++ discover ls2 /\
  (is_article h = true ->
   (count_occ string_dec (map href ls1) h
    <= count_occ string_dec (discover ls1) (resolve h))%nat).
Proof.
  split; [apply discover_app|]. intros Ha.
  induction ls1 as [|l ls1 IH]; cbn [discover map count_occ]; [lia|].
  destruct (string_dec (href l) h) as [->|Hne].
  - rewrite Ha. cbn [count_occ].
    destruct (string_dec (resolve h) (resolve h)); [lia|congruence].
  - destruct (is_article (href l)); [|exact IH].
    cbn [count_occ].
    destruct (string_dec (resolve (href l)) (resolve h)); lia.
Qed.

End Hrefs.

(** ** Merging into the extractor's record *)

Section Merge.

Lemma get_app (k : string) (a b : pydict) :
  Dict.get k (a ++ b) =
    match Dict.get k a with Some v => Some v | None => Dict.get k b end.
Proof.
  induction a as [|[k' v'] a IH]; cbn [Dict.get app]; [reflexivity|].
  now destruct (String.eqb k k').
Qed.

(** X18.  After [d.update(other)] a key of [other] holds the value of
    its last occurrence in [other], and every other key holds what it
    held in [d]. *)
Theorem update_precedence (d other : pydict) (k : string) :
  Dict.get k (Dict.update d other) =
    match Dict.get k (rev other) with
    | Some v => Some v
    | None => Dict.get k d
    end.
Proof.
  unfold Dict.update. revert d.
  induction other as [|[k0 v0] other IH]; intros d; [reflexivity|].
  cbn [fold_left fst snd rev]. rewrite IH, get_app.
  destruct (Dict.get k (rev other)); [reflexivity|].
  cbn [Dict.get]. destruct (String.eqb k k0) eqn:E.
  - apply String.eqb_eq in E. subst. apply get_set_eq.
  - apply get_set_ne. intros ->. now rewrite String.eqb_refl in E.
Qed.

Lemma keys_set_present (k : string) (v : json) (d : pydict) :
  In k (keys d) -> keys (Dict.set k v d) = keys d.
Proof.
  induction d as [|[k' v'] d IH]; cbn [keys map fst Dict.set In];
    [intros []|].
  destruct (String.eqb k k') eqn:E.
  - apply String.eqb_eq in E. now subst.
  - intros [->|Hin]; [now rewrite String.eqb_refl in E|].
    cbn [map fst]. f_equal. now apply IH.
Qed.

Lemma keys_set_absent (k : string) (v : json) (d : pydict) :
  ~ In k (keys d) -> keys (Dict.set k v d) = keys d ++ [k].
Proof.
  induction d as [|[k' v'] d IH]; cbn [keys map fst Dict.set In];
    [reflexivity|].
  intros Hn. destruct (String.eqb k k') eqn:E.
  - apply String.eqb_eq in E. subst. tauto.
  - cbn [map fst app]. f_equal. apply IH. tauto.
Qed.

Lemma keys_set (k : string) (v : json) (d : pydict) :
  exists extra,
    keys (Dict.set k v d) = keys d ++ extra /\
    (NoDup (keys d) -> NoDup (keys (Dict.set k v d))) /\
    In k (keys (Dict.set k v d)).
Proof.
  destruct (in_dec string_dec k (keys d)) as [Hin|Hn].
  - exists []. rewrite (keys_set_present k v d Hin), app_nil_r. auto.
  - exists [k]. rewrite (keys_set_absent k v d Hn).
    split; [reflexivity|]. split.
    + intros Hnd. apply NoDup_app. repeat split; auto.
      * intros x Hx Hx'. apply list_elem_of_In in Hx, Hx'.
        destruct Hx' as [->|[]]. tauto.
      * apply NoDup_singleton.
    + apply in_or_app. right. now left.
Qed.

Lemma keys_update (d other : pydict) :
  exists extra,
    keys (Dict.update d other) = keys d ++ extra /\
    (NoDup (keys d) -> NoDup (keys (Dict.update d other))) /\
    (forall k, In k (keys other) -> In k (keys (Dict.update d other))).
Proof.
  unfold Dict.update. revert d.
  induction other as [|[k0 v0] other IH]; intros d.
  - exists []. cbn. rewrite app_nil_r. repeat split; auto. intros k [].
  - cbn [fold_left fst snd].
    destruct (keys_set k0 v0 d) as (e1 & He1 & Hnd1 & Hin1).
    destruct (IH (Dict.set k0 v0 d)) as (e2 & He2 & Hnd2 & Hin2).
    exists (e1 ++ e2). split; [|split].
    + now rewrite He2, He1, app_assoc.
    + auto.
    + intros k [<-|Hk]; [|now apply Hin2].
      rewrite He2. apply in_or_app. now left.
Qed.

Lemma has_key_iff (k : string) (d : pydict) :
  has_key k d = true <-> In k (keys d).
Proof.
  unfold has_key. rewrite existsb_exists. split.
  - intros (x & Hin & E). apply String.eqb_eq in E. now subst.
  - intros Hin. exists k. split; [exact Hin|apply String.eqb_refl].
Qed.

(** The keys after [d.update(other)], when [other] repeats no key: those
    of [d], then the new ones in the order of [other]. *)
Lemma keys_update_exact (d other : pydict) :
  NoDup (keys other) ->
  keys (Dict.update d other) = keys d ++ missing_from d (keys other).
Proof.
  unfold Dict.update. revert d.
  induction other as [|[k0 v0] other IH]; intros d Hnd.
  - cbn. now rewrite app_nil_r.
  - cbn [keys map fst] in Hnd. apply NoDup_cons in Hnd as [Hk0 Hnd].
    rewrite list_elem_of_In in Hk0.
    cbn [fold_left fst snd]. rewrite (IH (Dict.set k0 v0 d) Hnd).
    cbn [keys map fst missing_from List.filter].
    fold (keys other). fold (keys d).
    destruct (has_key k0 d) eqn:Hhas; cbn [negb].
    + apply has_key_iff in Hhas.
      rewrite (keys_set_present k0 v0 d Hhas). f_equal.
      unfold missing_from, has_key.
      now rewrite (keys_set_present k0 v0 d Hhas).
    + assert (Habs : ~ In k0 (keys d)).
      { intros Hin. apply has_key_iff in Hin. congruence. }
      rewrite (keys_set_absent k0 v0 d Habs), <- app_assoc. cbn [app].
      do 2 f_equal. unfold missing_from.
      apply List.filter_ext_in. intros k Hk. f_equal.
      unfold has_key. rewrite (keys_set_absent k0 v0 d Habs).
      rewrite existsb_app. cbn [existsb]. rewrite orb_false_r.
      destruct (String.eqb k k0) eqn:E; [|now rewrite orb_false_r].
      apply String.eqb_eq in E. subst. contradiction.
Qed.

(** X19.  The keys of the processed record are those of the extractor's
    object, in their order, followed by those of [url], [crawl_date],
    [title] and [date_published], in this order, that the object did not
    have, and by nothing else; all four are present, and no key is
    repeated if none was in the extractor's object. *)
Theorem processed_record_keys (url ts : string) (m d : pydict) :
  keys (processed_record url ts m d) =
    keys d ++
    missing_from d ["url"; "crawl_date"; "title"; "date_published"] /\
  (NoDup (keys d) -> NoDup (keys (processed_record url ts m d))) /\
  In "url" (keys (processed_record url ts m d)) /\
  In "crawl_date" (keys (processed_record url ts m d)) /\
  In "title" (keys (processed_record url ts m d)) /\
  In "date_published" (keys (processed_record url ts m d)).
Proof.
  unfold processed_record.
  destruct (keys_update d
    (required_fields url ts (Dict.get_default "title" (JStr "") m)
       (Dict.get_default "date" (JStr "") m)))
    as (extra & He & Hnd & Hin).
  split.
  - apply keys_update_exact. cbn.
    apply (bool_decide_unpack _). vm_compute. exact I.
  - split; [exact Hnd|]. repeat split; apply Hin; cbn; auto.
Qed.

End Merge.


(** ** File names sort by time *)

Section SortOrder.

Lemma compare_shift_l (p a b : N) : (p + a ?= p + b)%N = (a ?= b)%N.
Proof.
  destruct (N.compare_spec a b) as [->|H|H].
  - apply N.compare_refl.
  - apply N.compare_lt_iff. lia.
  - apply N.compare_gt_iff. lia.
Qed.

Lemma compare_shift_r (p a b : N) : (a + p ?= b + p)%N = (a ?= b)%N.
Proof. rewrite !(N.add_comm _ p). apply compare_shift_l. Qed.

Lemma digit_compare (a b : N) :
  Ascii.compare (digit a) (digit b) = (a mod 10 ?= b mod 10)%N.
Proof.
  unfold Ascii.compare, digit.
  assert (Ha : (a mod 10 < 10)%N) by (apply N.mod_lt; lia).
  assert (Hb : (b mod 10 < 10)%N) by (apply N.mod_lt; lia).
  rewrite !N_ascii_embedding by lia.
  apply compare_shift_l.
Qed.

Lemma compare_scaled (B x y a b : N) :
  (x < B)%N -> (y < B)%N ->
  (x + B * a ?= y + B * b)%N = then_by (a ?= b)%N (x ?= y)%N.
Proof.
  intros Hx Hy. unfold then_by.
  destruct (N.compare_spec a b) as [->|Hlt|Hgt].
  - apply compare_shift_r.
  - apply N.compare_lt_iff. nia.
  - apply N.compare_gt_iff. nia.
Qed.

Lemma then_by_assoc (c1 c2 c3 : comparison) :
  then_by (then_by c1 c2) c3 = then_by c1 (then_by c2 c3).
Proof. now destruct c1. Qed.

(** A number in [w] digits in front of a string compares first by the
    number, then by the rest. *)
Lemma compare_fixed (w : nat) (n m : N) (s t : string) :
  String.compare (fixed w n +:+ s) (fixed w m +:+ t) =
    then_by (n mod 10 ^ N.of_nat w ?= m mod 10 ^ N.of_nat w)%N
      (String.compare s t).
Proof.
  induction w as [|w IH].
  - cbn [fixed String.append]. now rewrite !N.mod_1_r.
  - cbn [fixed]. simpl String.compare.
    rewrite digit_compare, IH.
    rewrite Nat2N.inj_succ, N.pow_succ_r', (N.mul_comm 10).
    rewrite !N.Div0.mod_mul_r.
    rewrite compare_scaled by (apply N.mod_lt, N.pow_nonzero; lia).
    rewrite then_by_assoc.
    now destruct ((n / 10 ^ N.of_nat w) mod 10 ?= (m / 10 ^ N.of_nat w) mod 10)%N.
Qed.

Lemma append_empty (s : string) : s +:+ "" = s.
Proof.
  induction s as [|c s IH]; [reflexivity|].
  change (String c (s +:+ "") = String c s). now rewrite IH.
Qed.

Lemma compare_after_underscore (s t : string) :
  String.compare ("_" +:+ s) ("_" +:+ t) = String.compare s t.
Proof. reflexivity. Qed.

(** X21.  The timestamps of two valid clock readings compare, as
    strings, the way the readings compare to the second: sorting the
    output files by name sorts them by the time of capture. *)
Theorem timestamps_sort_by_time (a b : datetime) :
  valid_datetime a = true -> valid_datetime b = true ->
  String.compare (strftime a) (strftime b) = compare_seconds a b.
Proof.
  intros Ha Hb.
  apply valid_datetime_bounds in Ha as (Ay & Am & Ad & AH & AM & AS).
  apply valid_datetime_bounds in Hb as (By & Bm & Bd & BH & BM & BS).
  unfold strftime, compare_seconds.
  rewrite <- (append_empty (fixed 2 (second a))).
  rewrite <- (append_empty (fixed 2 (second b))).
  rewrite !compare_fixed, compare_after_underscore, !compare_fixed.
  change (10 ^ N.of_nat 4)%N with 10000%N.
  change (10 ^ N.of_nat 2)%N with 100%N.
  rewrite !N.mod_small by assumption.
  change (String.compare "" "") with Eq. unfold then_by.
  repeat match goal with
         | |- context [(?x ?= ?y)%N] => destruct (x ?= y)%N
         end; reflexivity.
Qed.

End SortOrder.

(** ** What the files say *)

Section FileContents.

Variable W : World.

(** What a file written for [url] at timestamp [ts] can be. *)
Lemma extraction_writes url r ts st p c :
  In (Wrote p c)
     (new_events st (exec (save_processed_if_available W url r ts) st)) ->
  p = processed_filename ts /\
  exists m d, c = JObj (processed_record url ts m d).
Proof.
  unfold exec.
  assert (Hnone : forall st', trace st' = trace st ->
                  In (Wrote p c) (new_events st st') -> False).
  { intros st' Ht. rewrite (new_events_intro st st' []); [intros []|].
    now rewrite app_nil_r. }
  destruct (PyStr.truthy_opt (extracted_content r)) eqn:Ht.
  2:{ rewrite extraction_absent by assumption. intros H.
      now destruct (Hnone st eq_refl H). }
  destruct (extracted_content r) as [content|] eqn:Hc; [|discriminate].
  simpl in Ht.
  destruct (json_loads W content) as [msg|v] eqn:Hl.
  { erewrite extraction_undecodable by eassumption. cbn [snd].
    erewrite new_events_intro; [|cbn [trace log]; now rewrite <- app_assoc].
    intros [H|[H|[]]]; discriminate. }
  destruct (not_object v) eqn:Hv.
  { erewrite extraction_not_object by eassumption. intros H.
    now destruct (Hnone st eq_refl H). }
  destruct v as [| | | | |d]; try discriminate.
  destruct (metadata r) as [m|] eqn:Hm.
  2:{ erewrite extraction_no_metadata by eassumption. intros H.
      now destruct (Hnone st eq_refl H). }
  destruct (decide (processed_dir ∈ dirs st)) as [Hd|Hd].
  - erewrite extraction_saved by eassumption. cbn [snd].
    erewrite new_events_intro;
      [|cbn [trace log store]; now rewrite <- app_assoc].
    intros [H|[H|[]]]; [|discriminate].
    injection H as <- <-. split; [reflexivity|]. now exists m, d.
  - erewrite extraction_no_directory by eassumption. intros H.
    now destruct (Hnone st eq_refl H).
Qed.

Lemma iteration_writes strategy url st p c :
  In (Wrote p c)
     (new_events st (exec (article_iteration W strategy url) st)) ->
  exists ts,
    (p = raw_filename ts /\ exists r, c = raw_content url r ts) \/
    (p = processed_filename ts /\
     exists m d, c = JObj (processed_record url ts m d)).
Proof.
  unfold exec.
  destruct (arun W (fetches st) url (article_config strategy))
    as [e|r] eqn:Hf.
  { rewrite (iteration_fetch_raises W strategy url st e Hf).
    erewrite new_events_intro;
      [|cbn [snd]; now rewrite trace_reported, trace_requested, <- app_assoc].
    intros [H|[H|[H|[H|[]]]]]; discriminate. }
  destruct (success r) eqn:Hs.
  2:{ rewrite (iteration_fetch_failed W strategy url st r Hf Hs).
      erewrite new_events_intro;
        [|cbn [snd trace log]; now rewrite trace_requested, <- app_assoc].
      intros [H|[H|[H|[]]]]; discriminate. }
  destruct (decide (raw_dir ∈ dirs st)) as [Hd|Hd].
  2:{ rewrite (iteration_no_directory W strategy url st r Hf Hs Hd).
      erewrite new_events_intro;
        [|cbn [snd]; rewrite trace_reported; cbn [trace tick_clock];
          now rewrite trace_requested, <- app_assoc].
      intros [H|[H|[H|[H|[]]]]]; discriminate. }
  rewrite (iteration_fetched W strategy url st r Hf Hs Hd).
  pose proof (extraction_writes url r (capture_timestamp W st)
                (captured W strategy url r st) p c) as Hex.
  destruct (extraction_frame W url r (capture_timestamp W st)
              (captured W strategy url r st)) as (evs0 & Htr0 & _).
  unfold exec in Hex, Htr0.
  rewrite (new_events_intro _ _ _ Htr0) in Hex.
  destruct (save_processed_if_available W url r (capture_timestamp W st)
              (captured W strategy url r st)) as [[[]|ex] st2];
    cbn [snd] in *.
  - erewrite new_events_intro;
      [|rewrite trace_paused, Htr0, trace_captured, <- !app_assoc;
        reflexivity].
    cbn [app]. intros [H|[H|[H|[H|H]]]]; try discriminate.
    + injection H as <- <-. exists (capture_timestamp W st). left.
      split; [reflexivity|]. now exists r.
    + apply in_app_iff in H as [H|[H|[H|[]]]]; try discriminate.
      exists (capture_timestamp W st). right. now apply Hex.
  - erewrite new_events_intro;
      [|rewrite trace_reported, Htr0, trace_captured, <- !app_assoc;
        reflexivity].
    cbn [app]. intros [H|[H|[H|[H|H]]]]; try discriminate.
    + injection H as <- <-. exists (capture_timestamp W st). left.
      split; [reflexivity|]. now exists r.
    + apply in_app_iff in H as [H|[H|[H|[]]]]; try discriminate.
      exists (capture_timestamp W st). right. now apply Hex.
Qed.

Lemma loop_writes strategy urls st p c :
  In (Wrote p c) (loop_events W strategy urls st) ->
  exists url ts,
    In url urls /\
    ((p = raw_filename ts /\ exists r, c = raw_content url r ts) \/
     (p = processed_filename ts /\
      exists m d, c = JObj (processed_record url ts m d))).
Proof.
  revert st. induction urls as [|u urls IH]; intros st.
  - rewrite loop_events_nil. intros [].
  - rewrite loop_events_cons. intros H. apply in_app_iff in H as [H|H].
    + destruct (iteration_writes strategy u st p c H) as [ts Hts].
      exists u, ts. split; [now left|exact Hts].
    + destruct (IH _ H) as (url & ts & Hin & Hts).
      exists url, ts. split; [now right|exact Hts].
Qed.

(** X2.  Every file a run writes agrees with its name: a file written
    to [raw_<ts>.json] or [processed_<ts>.json] is a JSON object whose
    [crawl_date] is that very [ts] and whose [url] is one of the article
    URLs the run requested, and the run writes no other file. *)
Theorem written_files_agree_with_their_names (st : state) (p : Path)
    (c : json) :
  In (Wrote p c) (run_events W st) ->
  exists url ts,
    (p = raw_dir // ("raw_" +:+ ts +:+ ".json") \/
     p = processed_dir // ("processed_" +:+ ts +:+ ".json")) /\
    field "crawl_date" c = Some (JStr ts) /\
    field "url" c = Some (JStr url) /\
    In url (tl (fetched (run_events W st))).
Proof.
  destruct (run_cases W st) as [[_ ->] | [(e & _ & ->) | (r & _ & ->)]].
  - intros [H|[H|[]]]; discriminate.
  - intros [H|[H|[H|[]]]]; discriminate.
  - cbn [app]. intros [H|[H|[H|[H|H]]]]; try discriminate.
    apply in_app_iff in H as [H|[H|[]]]; [|discriminate].
    destruct (loop_writes _ _ _ p c H) as (url & ts & Hin & Hts).
    destruct (loop_tally W (run_strategy W) (article_urls r)
                (loop_start r st)) as (Hfetched & _).
    exists url, ts.
    assert (Hurl : In url
      (tl (fetched
             (Mkdir raw_dir :: Mkdir processed_dir
                :: Fetch root_url root_config
                :: Printed (MsgFound (length (article_urls r)))
                :: loop_events W (run_strategy W) (article_urls r)
                     (loop_start r st) ++ [Printed MsgCompleted])))).
    { cbn [fetched tl]. rewrite fetched_app, Hfetched. cbn [fetched].
      now rewrite app_nil_r. }
    destruct Hts as [[-> (r0 & ->)] | [-> (m & d & ->)]].
    + split; [now left|]. repeat split; auto.
    + split; [now right|].
      destruct (update_required_fields d url ts
                  (Dict.get_default "title" (JStr "") m)
                  (Dict.get_default "date" (JStr "") m))
        as (Hu & Hc & _).
      repeat split; auto.
Qed.

End FileContents.

(** ** Directories *)

Section Directories.

Variable W : World.

(** X20.  When the credential is set, the run leaves the base directory
    and both output directories in place, whatever happens afterwards,
    and makes no other directory; where they exist already nothing
    changes. *)
Theorem directories_made_with_parents (st : state) :
  PyStr.truthy_opt (environ W "OPENAI_API_KEY") = true ->
  dirs (snd (main W st)) =
    dirs st ∪ {[ ["vitalik_blog_data"] ]}
            ∪ {[ ["vitalik_blog_data"; "raw"] ]}
            ∪ {[ ["vitalik_blog_data"; "processed"] ]} /\
  (dirs_ready st -> ["vitalik_blog_data"] ∈ dirs st ->
   dirs (snd (main W st)) = dirs st).
Proof.
  intros Hk.
  assert (Hmade : dirs (snd (main W st)) =
               dirs (make_dirs processed_dir (make_dirs raw_dir st))).
  { unfold main. rewrite Hk. cbn [negb].
    destruct (arun W (fetches st) root_url root_config) as [e|r] eqn:Hf.
    - now rewrite (crawl_root_raises W st e Hk Hf).
    - rewrite (crawl_with_key W st r Hk Hf). cbn [snd log dirs].
      now rewrite loop_keeps_dirs. }
  rewrite Hmade. clear Hmade. cbn. split.
  - apply set_eq. intros x.
    rewrite !elem_of_union, !elem_of_singleton, !elem_of_empty. tauto.
  - intros [Hraw Hproc] Hbase.
    unfold raw_dir, processed_dir, base_dir, path_div in *. cbn in *.
    apply set_eq. intros x.
    rewrite !elem_of_union, !elem_of_singleton, !elem_of_empty.
    split; [|tauto].
    intros [[H|[->|[->|[]]]]|[->|[->|[]]]]; auto.
Qed.

End Directories.

(** ** More scenarios *)

Module MoreScenarios.

Import Sample Sample2.

Ltac computed := vm_compute; reflexivity.

Lemma run_requests_each_url_once_witness :
  fetched (run_events W_ok empty_state) = [root_url; url_a; url_b].
Proof.
  apply (run_requests_each_url_once W_ok empty_state root_page); computed.
Defined.

Lemma article_requests_use_the_strategy_witness :
  fetch_configs (run_events W_ok empty_state) =
    [ root_config; article_config (make_strategy "sk-test");
      article_config (make_strategy "sk-test") ].
Proof.
  apply (article_requests_use_the_strategy W_ok empty_state root_page
           "sk-test"); computed.
Defined.

Lemma root_request_failure_aborts_witness :
  fst (main W_root_down empty_state) = 1%Z /\
  run_events W_root_down empty_state =
    [Mkdir raw_dir; Mkdir processed_dir; Fetch root_url root_config] /\
  fs (snd (main W_root_down empty_state)) = fs empty_state /\
  dirs_ready (snd (main W_root_down empty_state)).
Proof.
  apply (root_request_failure_aborts W_root_down empty_state
           (EngineError "net::ERR_CONNECTION_REFUSED")); computed.
Defined.

Lemma raised_fetch_is_reported_witness :
  let st' := exec (article_iteration W_fetch_raises strategy url_a) ready in
  new_events ready st' =
    [ Printed (MsgProcessing url_a); Fetch url_a (article_config strategy);
      Printed (MsgError url_a (EngineError "Timeout 60000ms"));
      Printed MsgTraceback ] /\
  fs st' = fs ready /\
  for_each [url_a; url_b] (article_iteration W_fetch_raises strategy) ready =
    for_each [url_b] (article_iteration W_fetch_raises strategy) st'.
Proof.
  apply (raised_fetch_is_reported W_fetch_raises strategy url_a [url_b]
           ready (EngineError "Timeout 60000ms")); computed.
Defined.

Lemma absent_extraction_keeps_raw_witness :
  let st := in_loop W_unextracted strategy root_page empty_state [] in
  let st' := exec (article_iteration W_unextracted strategy url_a) st in
  written (new_events st st') = [raw_filename "20240309_140500"] /\
  sleeps (new_events st st') = [next_delay W_unextracted st] /\
  fs st' !! processed_filename "20240309_140500" = None.
Proof.
  destruct (absent_extraction_keeps_raw W_unextracted strategy root_page
              empty_state [] url_a page_a_unextracted)
    as (Hev & _ & Hproc); [reflexivity | reflexivity | reflexivity |].
  split; [now rewrite Hev|]. split; [now rewrite Hev | exact Hproc].
Defined.

Lemma missing_metadata_blocks_processed_record_witness :
  let st := in_loop W_bare strategy root_page empty_state [] in
  let st' := exec (article_iteration W_bare strategy url_a) st in
  written (new_events st st') = [raw_filename "20240309_140500"] /\
  sleeps (new_events st st') = [] /\
  fs st' !! processed_filename "20240309_140500" = None.
Proof.
  destruct (missing_metadata_blocks_processed_record W_bare strategy
              root_page empty_state [] url_a page_a_bare object_text
              [ ("title", JStr "guess"); ("date_published", JNull);
                ("summary", JStr "rollups") ])
    as (Hev & Hproc);
    [reflexivity | reflexivity | reflexivity | reflexivity | reflexivity
    | reflexivity |].
  split; [now rewrite Hev|]. split; [now rewrite Hev | exact Hproc].
Defined.

Lemma run_write_tally_witness :
  let evs := run_events W_array empty_state in
  (length (writes_under processed_dir evs) <= length (sleeps evs))%nat /\
  (length (sleeps evs) <= length (writes_under raw_dir evs))%nat /\
  (length (writes_under raw_dir evs) <= 2)%nat.
Proof.
  apply (run_write_tally W_array empty_state root_page); computed.
Defined.

Lemma processed_files_have_raw_twins_witness :
  In (raw_filename "20240309_140503") (written (run_events W_ok empty_state)).
Proof.
  apply (processed_files_have_raw_twins W_ok empty_state "20240309_140503").
  vm_compute. right; right; right; left. reflexivity.
Defined.

Lemma run_keeps_other_files_witness :
  let st := store ["notes.txt"] (JStr "keep") empty_state in
  fs (snd (main W_ok st)) !! ["notes.txt"] = Some (JStr "keep").
Proof.
  intros st.
  destruct (run_keeps_other_files W_ok st ["notes.txt"]) as [_ H].
  rewrite H; [reflexivity | discriminate | discriminate].
Defined.

Lemma discovery_keeps_order_and_duplicates_witness :
  (2 <= count_occ string_dec
          (article_urls twice_page) "https://vitalik.eth.limo/posts/a")%nat.
Proof.
  destruct (discovery_keeps_order_and_duplicates
              (links_get "internal" [] (links twice_page)) [] "/posts/a")
    as [_ H].
  apply (H eq_refl).
Defined.

Lemma resolve_glues_relative_hrefs_witness :
  resolve "blog/posts/a" = "https://vitalik.eth.limoblog/posts/a" /\
  PyStr.startswith "https://vitalik.eth.limo/" (resolve "blog/posts/a")
    = false.
Proof.
  destruct (resolve_glues_relative_hrefs "blog/posts/a" eq_refl) as [H1 H2].
  split; [exact H1 | exact (H2 eq_refl)].
Defined.

Lemma processed_record_keys_witness :
  NoDup (keys (processed_record "u" "t" [("title", JStr "T")]
                 [("title", JStr "guess"); ("summary", JStr "s")])).
Proof.
  apply (processed_record_keys "u" "t" [("title", JStr "T")]
           [("title", JStr "guess"); ("summary", JStr "s")]).
  apply (bool_decide_unpack _). vm_compute. exact I.
Defined.

Lemma timestamps_sort_by_time_witness :
  String.compare (strftime (at_second 0 250000)) (strftime (at_second 3 0))
    = Lt.
Proof.
  rewrite (timestamps_sort_by_time (at_second 0 250000) (at_second 3 0));
    reflexivity.
Defined.

Lemma directories_made_with_parents_witness :
  dirs (snd (main W_root_down empty_state)) =
    ∅ ∪ {[ ["vitalik_blog_data"] ]}
      ∪ {[ ["vitalik_blog_data"; "raw"] ]}
      ∪ {[ ["vitalik_blog_data"; "processed"] ]}.
Proof.
  apply (directories_made_with_parents W_root_down empty_state).
  reflexivity.
Defined.

Lemma written_files_agree_with_their_names_witness :
  exists url ts,
    (raw_filename "20240309_140500"
       = raw_dir // ("raw_" +:+ ts +:+ ".json") \/
     raw_filename "20240309_140500"
       = processed_dir // ("processed_" +:+ ts +:+ ".json")) /\
    field "crawl_date" (raw_content url_a page_a "20240309_140500")
      = Some (JStr ts) /\
    field "url" (raw_content url_a page_a "20240309_140500")
      = Some (JStr url) /\
    In url (tl (fetched (run_events W_ok empty_state))).
Proof.
  apply (written_files_agree_with_their_names W_ok empty_state
           (raw_filename "20240309_140500")
           (raw_content url_a page_a "20240309_140500")).
  vm_compute. do 6 right. left. reflexivity.
Defined.

End MoreScenarios.
